(** * IPython.external.qt : the Qt API selector

    A shallow embedding of [IPython/external/qt.py] and the properties of
    its module initialisation.

    The module body is straight-line Python executed once at import.  It
    reads [os.environ], binds module globals, imports foreign packages,
    calls [sip.setapi], assigns attributes on a foreign module object and
    may raise.  The body is embedded as a computation in a state-and-
    exception monad over an explicit host: the process environment, the
    table of installed modules, the set of loaded modules, the attribute
    dictionaries of module objects and sip's table of API versions.  Every
    effect is also appended to a trace, so that ordering and frame
    properties are stated on what the body did. *)

From Stdlib Require Import ZArith NArith Ascii String List Bool Lia.
From stdpp Require Import base option list gmap strings.

Local Open Scope string_scope.
Local Open Scope Z_scope.

(** ** Python byte strings: [in], [repr] and [%] *)

Module PyStr.

(** [sub in s] on strings. *)
Fixpoint contains (s sub : string) : bool :=
  String.prefix sub s ||
  match s with
  | EmptyString => false
  | String _ s' => contains s' sub
  end.

(** The declarative reading of [sub in s]. *)
Definition Contains (s sub : string) : Prop :=
  exists pre post : string, s = pre +:+ sub +:+ post.

Fixpoint mem (c : ascii) (s : string) : bool :=
  match s with
  | EmptyString => false
  | String d s' => Ascii.eqb c d || mem c s'
  end.

Definition squote : ascii := "'"%char.
Definition dquote : ascii := "034"%char.
Definition backslash : ascii := "\"%char.
Definition tab : ascii := "009"%char.
Definition newline : ascii := "010"%char.
Definition creturn : ascii := "013"%char.

Definition hex_digit (n : N) : ascii :=
  match n with
  | 0 => "0" | 1 => "1" | 2 => "2" | 3 => "3" | 4 => "4" | 5 => "5"
  | 6 => "6" | 7 => "7" | 8 => "8" | 9 => "9" | 10 => "a" | 11 => "b"
  | 12 => "c" | 13 => "d" | 14 => "e" | _ => "f"
  end%N%char.

(** What [repr] writes for one byte inside the quotes [quote]: the quote
    and the backslash are escaped with a backslash, tab, newline and
    carriage return get their letter escapes, every other byte below the
    space or from 0x7f on is written [\xNN], and the rest is copied. *)
Definition repr_char (quote c : ascii) : string :=
  if Ascii.eqb c quote || Ascii.eqb c backslash then
    String backslash (String c EmptyString)
  else if Ascii.eqb c tab then String backslash "t"
  else if Ascii.eqb c newline then String backslash "n"
  else if Ascii.eqb c creturn then String backslash "r"
  else if (N_of_ascii c <? 32)%N || (127 <=? N_of_ascii c)%N then
    String backslash
      (String "x"
         (String (hex_digit (N_of_ascii c / 16))
            (String (hex_digit (N_of_ascii c mod 16)) EmptyString)))
  else String c EmptyString.

Fixpoint repr_body (quote : ascii) (s : string) : string :=
  match s with
  | EmptyString => EmptyString
  | String c s' => repr_char quote c +:+ repr_body quote s'
  end.

(** [repr(s)] for a [str]: single quotes, unless the string holds a
    single quote and no double quote. *)
Definition repr_quote (s : string) : ascii :=
  if mem squote s && negb (mem dquote s) then dquote else squote.

Definition repr (s : string) : string :=
  String (repr_quote s) (repr_body (repr_quote s) s +:+ String (repr_quote s) EmptyString).

(** [fmt % args] for the conversions [%r], [%s] and [%%] over string
    arguments.  [None] stands for the [TypeError]/[ValueError] Python
    raises when arguments and conversions do not match up. *)
Fixpoint format (fmt : string) (args : list string) : option string :=
  match fmt with
  | EmptyString =>
      match args with
      | [] => Some EmptyString
      | _ :: _ => None
      end
  | String "%" (String "r" rest) =>
      match args with
      | [] => None
      | a :: args' => (fun out => repr a +:+ out) <$> format rest args'
      end
  | String "%" (String "s" rest) =>
      match args with
      | [] => None
      | a :: args' => (fun out => a +:+ out) <$> format rest args'
      end
  | String "%" (String "%" rest) => String "%"%char <$> format rest args
  | String "%" _ => None
  | String c rest => String c <$> format rest args
  end.

(** Bytes that [repr] copies unchanged inside single quotes. *)
Definition plain_char (c : ascii) : bool :=
  negb (Ascii.eqb c squote) && negb (Ascii.eqb c backslash) &&
  (32 <=? N_of_ascii c)%N && (N_of_ascii c <? 127)%N.

Fixpoint plain (s : string) : bool :=
  match s with
  | EmptyString => true
  | String c s' => plain_char c && plain s'
  end.

End PyStr.

(** ** The host: process environment, import system, module objects, sip *)

(** Object identities; [x is y] is equality of identities. *)
Abbreviation loc := positive.

(** The values the shim binds in its own namespace. *)
Inductive value :=
| VStr (s : string)
| VBuiltin (name : string)
| VRef (l : loc).

(** What the host can raise, and the one error of the shim itself. *)
Inductive exn :=
| RuntimeError (msg : string)
| TypeError
| ImportError (name : string)
| AttributeError (attr : string)
| ValueError (api : string).

(** Effects performed, in the order they happen. *)
Inductive event :=
| EvEnvGet (key : string)
| EvStore (name : string)
| EvImport (name : string)
| EvSetApi (api : string) (version : Z)
| EvSetAttr (obj : loc) (attr : string).

Record World := mkWorld {
  environ : gmap string string;      (* os.environ *)
  installed : gmap string loc;       (* importable modules, by dotted name *)
  sys_modules : gset string;         (* modules loaded so far *)
  heap : gmap loc (gmap string loc); (* attributes of module objects *)
  sip_api : gmap string Z            (* API versions fixed in sip *)
}.

Record State := mkState {
  world : World;
  globals : gmap string value;       (* the shim's module namespace *)
  trace : list event
}.

Definition M (A : Type) : Type := State -> State * (exn + A).

Definition ret {A} (a : A) : M A := fun st => (st, inr a).

Definition bind {A B} (m : M A) (k : A -> M B) : M B :=
  fun st =>
    match m st with
    | (st', inl e) => (st', inl e)
    | (st', inr a) => k a st'
    end.

Definition raise {A} (e : exn) : M A := fun st => (st, inl e).

Notation "x <- m ;; k" := (bind m (fun x => k))
  (at level 100, m at next level, right associativity).
Notation "m ;; k" := (bind m (fun _ => k))
  (at level 100, right associativity).

Definition emit (e : event) : M unit :=
  fun st => (mkState (world st) (globals st) (trace st ++ [e]), inr tt).

(** [name = v] at module level. *)
Definition store (name : string) (v : value) : M unit :=
  fun st =>
    (mkState (world st) (<[name := v]> (globals st)) (trace st ++ [EvStore name]),
     inr tt).

(** [os.environ.get(key, default)]. *)
Definition environ_get (key dflt : string) : M string :=
  fun st =>
    (mkState (world st) (globals st) (trace st ++ [EvEnvGet key]),
     inr (match environ (world st) !! key with
          | Some v => v
          | None => dflt
          end)).

Definition mark_loaded (name : string) (w : World) : World :=
  mkWorld (environ w) (installed w) ({[name]} ∪ sys_modules w) (heap w) (sip_api w).

(** The import of one module by its dotted name: [ImportError] when it is
    not installed, else the module is loaded and its object returned. *)
Definition import_name (name : string) : M loc :=
  fun st =>
    match installed (world st) !! name with
    | None => (st, inl (ImportError name))
    | Some l =>
        (mkState (mark_loaded name (world st)) (globals st)
           (trace st ++ [EvImport name]),
         inr l)
    end.

(** One name of [from pkg import name]: the submodule [pkg.name] is
    imported and bound to [name] in the namespace. *)
Definition import_from (pkg name : string) : M loc :=
  l <- import_name (pkg +:+ "." +:+ name) ;;
  store name (VRef l) ;;
  ret l.

(** [import os]: the standard library is part of the interpreter. *)
Definition import_os : M unit :=
  emit (EvImport "os") ;;
  store "os" (VBuiltin "os").

(** [sip.setapi(api, version)], a call into the foreign sip module: sip
    refuses ([ValueError]) an API already fixed at another version, and
    otherwise fixes it. *)
Definition setapi (sip : loc) (api : string) (version : Z) : M unit :=
  fun st =>
    let w := world st in
    match sip_api w !! api with
    | Some v' =>
        if Z.eqb v' version
        then (mkState w (globals st) (trace st ++ [EvSetApi api version]), inr tt)
        else (st, inl (ValueError api))
    | None =>
        (mkState
           (mkWorld (environ w) (installed w) (sys_modules w) (heap w)
              (<[api := version]> (sip_api w)))
           (globals st) (trace st ++ [EvSetApi api version]),
         inr tt)
    end.

(** [obj.attr]. *)
Definition getattr (obj : loc) (attr : string) : M loc :=
  fun st =>
    match heap (world st) !! obj with
    | Some d =>
        match d !! attr with
        | Some l => (st, inr l)
        | None => (st, inl (AttributeError attr))
        end
    | None => (st, inl (AttributeError attr))
    end.

(** [obj.attr = v]. *)
Definition setattr (obj : loc) (attr : string) (v : loc) : M unit :=
  fun st =>
    let w := world st in
    let d := match heap w !! obj with Some d => d | None => ∅ end in
    (mkState
       (mkWorld (environ w) (installed w) (sys_modules w)
          (<[obj := <[attr := v]> d]> (heap w)) (sip_api w))
       (globals st) (trace st ++ [EvSetAttr obj attr]),
     inr tt).

(** ['...' % args], raising when the conversion fails. *)
Definition format (fmt : string) (args : list string) : M string :=
  match PyStr.format fmt args with
  | Some s => ret s
  | None => raise TypeError
  end.

(** ** The module body of [IPython/external/qt.py] *)

(* Available APIs. *)
Definition QT_API_PYQT : string := "pyqt".
Definition QT_API_PYSIDE : string := "pyside".

Definition qt : M unit :=
  import_os ;;
  store "QT_API_PYQT" (VStr QT_API_PYQT) ;;
  store "QT_API_PYSIDE" (VStr QT_API_PYSIDE) ;;
  (* Use PyQt by default until PySide is stable. *)
  QT_API <- environ_get "QT_API" QT_API_PYQT ;;
  store "QT_API" (VStr QT_API) ;;
  if String.eqb QT_API QT_API_PYQT then
    sip <- import_name "sip" ;;
    store "sip" (VRef sip) ;;
    setapi sip "QString" 2 ;;
    setapi sip "QVariant" 2 ;;
    import_name "PyQt4" ;;
    QtCore <- import_from "PyQt4" "QtCore" ;;
    import_from "PyQt4" "QtGui" ;;
    import_from "PyQt4" "QtSvg" ;;
    (* Alias PyQt-specific functions for PySide compatibility. *)
    pyqtSignal <- getattr QtCore "pyqtSignal" ;;
    setattr QtCore "Signal" pyqtSignal ;;
    pyqtSlot <- getattr QtCore "pyqtSlot" ;;
    setattr QtCore "Slot" pyqtSlot
  else if String.eqb QT_API QT_API_PYSIDE then
    import_name "PySide" ;;
    import_from "PySide" "QtCore" ;;
    import_from "PySide" "QtGui" ;;
    import_from "PySide" "QtSvg" ;;
    ret tt
  else
    msg <- format "Invalid Qt API %r, valid values are: %r or %r"
             [QT_API; QT_API_PYQT; QT_API_PYSIDE] ;;
    raise (RuntimeError msg).

(** Importing the shim in a host [w]: the body runs on an empty
    namespace and an empty trace. *)
Definition import_qt (w : World) : State * (exn + unit) :=
  qt (mkState w ∅ []).

Definition final (w : World) : State := fst (import_qt w).
Definition outcome (w : World) : exn + unit := snd (import_qt w).

(** A later read of the shim's [QT_API] attribute. *)
Definition read_QT_API (st : State) : option value := globals st !! "QT_API".

(** [os.environ[key] = v] by other code of the process, after the import. *)
Definition putenv (key v : string) (st : State) : State :=
  let w := world st in
  mkState
    (mkWorld (<[key := v]> (environ w)) (installed w) (sys_modules w) (heap w)
       (sip_api w))
    (globals st) (trace st).

(** [del os.environ[key]]. *)
Definition unsetenv (key : string) (st : State) : State :=
  let w := world st in
  mkState
    (mkWorld (delete key (environ w)) (installed w) (sys_modules w) (heap w)
       (sip_api w))
    (globals st) (trace st).

(** ** Sample hosts *)

Module Sample.

(** A host with sip, PyQt4 and PySide installed.  Module objects 1..9;
    the PyQt4 core module (object 3) has [pyqtSignal] (object 20) and
    [pyqtSlot] (object 21); the PySide core module (object 7) has
    [Signal] and [Slot] of its own (objects 30 and 31). *)
Definition modules : gmap string loc :=
  list_to_map
    [("sip", 1%positive); ("PyQt4", 2%positive); ("PyQt4.QtCore", 3%positive);
     ("PyQt4.QtGui", 4%positive); ("PyQt4.QtSvg", 5%positive);
     ("PySide", 6%positive); ("PySide.QtCore", 7%positive);
     ("PySide.QtGui", 8%positive); ("PySide.QtSvg", 9%positive)].

Definition objects : gmap loc (gmap string loc) :=
  list_to_map
    [(3%positive,
      list_to_map [("pyqtSignal", 20%positive); ("pyqtSlot", 21%positive)]);
     (7%positive,
      list_to_map [("Signal", 30%positive); ("Slot", 31%positive)])].

Definition host (env : gmap string string) : World :=
  mkWorld env modules ∅ objects ∅.

Definition unset : World := host ∅.
Definition with_api (v : string) : World := host {["QT_API" := v]}.

(** A host where nothing but the interpreter is installed. *)
Definition bare (env : gmap string string) : World := mkWorld env ∅ ∅ ∅ ∅.

End Sample.

(** ** Vocabulary of the properties *)

(** The identity the shim resolves in a host: the value of [QT_API] in
    the environment, or the PyQt identifier when the variable is absent. *)
Definition resolve (w : World) : string :=
  match environ w !! "QT_API" with
  | Some v => v
  | None => QT_API_PYQT
  end.

(** The text of the error for an offending value [v]. *)
Definition invalid_message (v : string) : string :=
  "Invalid Qt API " +:+ PyStr.repr v +:+ ", valid values are: " +:+
  PyStr.repr QT_API_PYQT +:+ " or " +:+ PyStr.repr QT_API_PYSIDE.

(** What the body does before it branches, and its namespace there. *)
Definition prologue_trace : list event :=
  [EvImport "os"; EvStore "os"; EvStore "QT_API_PYQT"; EvStore "QT_API_PYSIDE";
   EvEnvGet "QT_API"; EvStore "QT_API"].

Definition prologue_globals (v : string) : gmap string value :=
  <["QT_API" := VStr v]>
    (<["QT_API_PYSIDE" := VStr QT_API_PYSIDE]>
       (<["QT_API_PYQT" := VStr QT_API_PYQT]> (<["os" := VBuiltin "os"]> ∅))).

(** What the PyQt branch does when nothing fails, [qc] being the core
    module, and the same for the PySide branch. *)
Definition pyqt_tail (qc : loc) : list event :=
  [EvImport "sip"; EvStore "sip"; EvSetApi "QString" 2; EvSetApi "QVariant" 2;
   EvImport "PyQt4"; EvImport "PyQt4.QtCore"; EvStore "QtCore";
   EvImport "PyQt4.QtGui"; EvStore "QtGui"; EvImport "PyQt4.QtSvg";
   EvStore "QtSvg"; EvSetAttr qc "Signal"; EvSetAttr qc "Slot"].

Definition pyside_tail : list event :=
  [EvImport "PySide"; EvImport "PySide.QtCore"; EvStore "QtCore";
   EvImport "PySide.QtGui"; EvStore "QtGui"; EvImport "PySide.QtSvg";
   EvStore "QtSvg"].

(** The longest trace a run can leave, for the identity [v] resolved and
    the table [inst] of installed modules. *)
Definition script_for (inst : gmap string loc) (v : string) : list event :=
  prologue_trace ++
  (if String.eqb v QT_API_PYQT then
     pyqt_tail (default 1%positive (inst !! "PyQt4.QtCore"))
   else if String.eqb v QT_API_PYSIDE then pyside_tail
   else []).

Definition script (w : World) : list event :=
  script_for (installed w) (resolve w).

(** [obj.attr] read after the import; [x is y] on two such reads is
    equality of the identities read. *)
Definition world_attr (w : World) (obj : loc) (attr : string) : option loc :=
  heap w !! obj ≫= (.!! attr).

Definition attr_of (st : State) (obj : loc) (attr : string) : option loc :=
  world_attr (world st) obj attr.

Definition is_env_read (e : event) : bool :=
  match e with EvEnvGet _ => true | _ => false end.

Definition is_store_of (name : string) (e : event) : bool :=
  match e with EvStore n => String.eqb n name | _ => false end.

Definition is_setapi (e : event) : bool :=
  match e with EvSetApi _ _ => true | _ => false end.

Definition is_setattr (e : event) : bool :=
  match e with EvSetAttr _ _ => true | _ => false end.

(** Imports of anything but the interpreter's own [os]: sip and the
    modules of the two bindings. *)
Definition is_foreign_import (e : event) : bool :=
  match e with EvImport n => negb (String.eqb n "os") | _ => false end.

(** The package of Binding-A and its core, GUI and SVG modules. *)
Definition pyqt4_modules : list string :=
  ["PyQt4"; "PyQt4.QtCore"; "PyQt4.QtGui"; "PyQt4.QtSvg"].

Definition count (p : event -> bool) (tr : list event) : nat :=
  length (filter (fun e => p e = true) tr).

(** Every occurrence of [b] in the trace has an occurrence of [a]
    strictly before it. *)
Definition precedes (a b : event) (tr : list event) : Prop :=
  forall j, tr !! j = Some b -> exists i, (i < j)%nat /\ tr !! i = Some a.

Global Instance event_eq_dec : EqDecision event.
Proof. solve_decision. Defined.

Fixpoint precedes_b (a b : event) (seen : bool) (tr : list event) : bool :=
  match tr with
  | [] => true
  | e :: tr' =>
      (if bool_decide (e = b) then seen else true) &&
      precedes_b a b (seen || bool_decide (e = a)) tr'
  end.

(** sip lets [api] be fixed at [version]: it is not fixed yet, or fixed
    at that very version. *)
Definition sip_accepts (w : World) (api : string) (version : Z) : Prop :=
  sip_api w !! api = None \/ sip_api w !! api = Some version.

(** The host provides Binding-A: sip and the PyQt4 package with its
    three modules [qc], [qg], [qs] are installed, sip accepts version 2
    of both APIs, and the core module has the native entry points
    [pyqtSignal] ([sg]) and [pyqtSlot] ([sl]). *)
Record provides_pyqt (w : World) (qc qg qs sg sl : loc) : Prop := {
  pyqt_sip : is_Some (installed w !! "sip");
  pyqt_qstring : sip_accepts w "QString" 2;
  pyqt_qvariant : sip_accepts w "QVariant" 2;
  pyqt_pkg : is_Some (installed w !! "PyQt4");
  pyqt_core : installed w !! "PyQt4.QtCore" = Some qc;
  pyqt_gui : installed w !! "PyQt4.QtGui" = Some qg;
  pyqt_svg : installed w !! "PyQt4.QtSvg" = Some qs;
  pyqt_signal : world_attr w qc "pyqtSignal" = Some sg;
  pyqt_slot : world_attr w qc "pyqtSlot" = Some sl
}.

(** The host provides Binding-B: the PySide package with its three
    modules. *)
Record provides_pyside (w : World) (qc qg qs : loc) : Prop := {
  pyside_pkg : is_Some (installed w !! "PySide");
  pyside_core : installed w !! "PySide.QtCore" = Some qc;
  pyside_gui : installed w !! "PySide.QtGui" = Some qg;
  pyside_svg : installed w !! "PySide.QtSvg" = Some qs
}.

(** What every run satisfies, for the identity [v] resolved and the
    table [inst] of installed modules: the trace starts with the prologue
    and is a prefix of the script, and the three configuration names are
    bound as the prologue bound them. *)
Definition summary_at (inst : gmap string loc) (v : string)
    (r : State * (exn + unit)) : Prop :=
  prologue_trace `prefix_of` trace (fst r) /\
  trace (fst r) `prefix_of` script_for inst v /\
  forall name, name ∈ ["QT_API_PYQT"; "QT_API_PYSIDE"; "QT_API"] ->
    globals (fst r) !! name = prologue_globals v !! name.

(** What a run of the PyQt branch leaves when the host provides the
    binding. *)
Definition pyqt_post (qc qg qs sg sl : loc) (r : State * (exn + unit)) : Prop :=
  snd r = inr tt /\
  trace (fst r) = (prologue_trace ++ pyqt_tail qc)%list /\
  (globals (fst r) !! "QtCore" = Some (VRef qc) /\
   globals (fst r) !! "QtGui" = Some (VRef qg) /\
   globals (fst r) !! "QtSvg" = Some (VRef qs)) /\
  (attr_of (fst r) qc "Signal" = Some sg /\
   attr_of (fst r) qc "pyqtSignal" = Some sg /\
   attr_of (fst r) qc "Slot" = Some sl /\
   attr_of (fst r) qc "pyqtSlot" = Some sl) /\
  (sip_api (world (fst r)) !! "QString" = Some 2 /\
   sip_api (world (fst r)) !! "QVariant" = Some 2) /\
  forall n, n ∈ pyqt4_modules -> n ∈ sys_modules (world (fst r)).

(** What a run of the PySide branch leaves when the host provides the
    binding. *)
Definition pyside_post (qc qg qs : loc) (r : State * (exn + unit)) : Prop :=
  snd r = inr tt /\
  trace (fst r) = (prologue_trace ++ pyside_tail)%list /\
  (globals (fst r) !! "QtCore" = Some (VRef qc) /\
   globals (fst r) !! "QtGui" = Some (VRef qg) /\
   globals (fst r) !! "QtSvg" = Some (VRef qs)) /\
  forall n, n ∈ ["PySide"; "PySide.QtCore"; "PySide.QtGui"; "PySide.QtSvg"] ->
    n ∈ sys_modules (world (fst r)).

(** What every run of the PySide branch leaves untouched. *)
Definition pyside_frame (w : World) (r : State * (exn + unit)) : Prop :=
  heap (world (fst r)) = heap w /\ sip_api (world (fst r)) = sip_api w.

(** ASCII lower-casing and stripping of surrounding whitespace, the
    normalisation the shim does not perform. *)
Module Normalise.

Definition lower_char (c : ascii) : ascii :=
  let n := N_of_ascii c in
  if (65 <=? n)%N && (n <=? 90)%N then ascii_of_N (n + 32) else c.

Fixpoint lower (s : string) : string :=
  match s with
  | EmptyString => EmptyString
  | String c s' => String (lower_char c) (lower s')
  end.

Definition is_space (c : ascii) : bool :=
  let n := N_of_ascii c in (n =? 32)%N || ((9 <=? n)%N && (n <=? 13)%N).

Fixpoint lstrip (s : string) : string :=
  match s with
  | EmptyString => EmptyString
  | String c s' => if is_space c then lstrip s' else s
  end.

Fixpoint rstrip (s : string) : string :=
  match s with
  | EmptyString => EmptyString
  | String c s' =>
      match rstrip s' with
      | EmptyString => if is_space c then EmptyString else String c EmptyString
      | r => String c r
      end
  end.

Definition normalise (s : string) : string := lower (rstrip (lstrip s)).

End Normalise.

(** ** Vocabulary of the further properties *)

(** The package of Binding-B and its three modules. *)
Definition pyside_modules : list string :=
  ["PySide"; "PySide.QtCore"; "PySide.QtGui"; "PySide.QtSvg"].

(** What an exception that leaves the body says of the host [w], [v]
    being the identity resolved. *)
Definition explains (w : World) (v : string) (e : exn) : Prop :=
  match e with
  | RuntimeError msg =>
      v <> QT_API_PYQT /\ v <> QT_API_PYSIDE /\ msg = invalid_message v
  | TypeError => False
  | ImportError n =>
      installed w !! n = None /\
      ((v = QT_API_PYQT /\ n ∈ "sip" :: pyqt4_modules) \/
       (v = QT_API_PYSIDE /\ n ∈ pyside_modules))
  | AttributeError a =>
      v = QT_API_PYQT /\ (a = "pyqtSignal" \/ a = "pyqtSlot") /\
      exists qc, installed w !! "PyQt4.QtCore" = Some qc /\
                 world_attr w qc a = None
  | ValueError api =>
      v = QT_API_PYQT /\ (api = "QString" \/ api = "QVariant") /\
      exists v', sip_api w !! api = Some v' /\ v' <> 2
  end.

(** The host provides the binding that the identity [v] selects. *)
Definition provides_selected (w : World) (v : string) : Prop :=
  (v = QT_API_PYQT /\ exists qc qg qs sg sl, provides_pyqt w qc qg qs sg sl) \/
  (v = QT_API_PYSIDE /\ exists qc qg qs, provides_pyside w qc qg qs).

(** What the host [w] looks like after a run: the environment and the
    installed modules are as they were, no module was unloaded, the only
    attributes that can differ are [Signal] and [Slot] of the PyQt4 core
    module, and the only sip APIs that can differ are [QString] and
    [QVariant]. *)
Definition frame (w w' : World) : Prop :=
  environ w' = environ w /\
  installed w' = installed w /\
  sys_modules w ⊆ sys_modules w' /\
  (forall obj attr,
     installed w !! "PyQt4.QtCore" <> Some obj \/
     (attr <> "Signal" /\ attr <> "Slot") ->
     world_attr w' obj attr = world_attr w obj attr) /\
  (forall api, api <> "QString" -> api <> "QVariant" ->
     sip_api w' !! api = sip_api w !! api).

Definition audit_at (w : World) (v : string) (r : State * (exn + unit)) : Prop :=
  match snd r with
  | inl e => explains w v e
  | inr _ => provides_selected w v
  end /\
  frame w (world (fst r)) /\
  (snd r = inr tt \/ snd r = inl (AttributeError "pyqtSlot") \/
   heap (world (fst r)) = heap w).

(** The host lets the PyQt branch reach the aliasing: sip and the PyQt4
    package with its three modules [qc], [qg], [qs] are installed and
    sip accepts version 2 of both APIs. *)
Record provides_pyqt4_modules (w : World) (sip qc qg qs : loc) : Prop := {
  mods_sip : installed w !! "sip" = Some sip;
  mods_qstring : sip_accepts w "QString" 2;
  mods_qvariant : sip_accepts w "QVariant" 2;
  mods_pkg : is_Some (installed w !! "PyQt4");
  mods_core : installed w !! "PyQt4.QtCore" = Some qc;
  mods_gui : installed w !! "PyQt4.QtGui" = Some qg;
  mods_svg : installed w !! "PyQt4.QtSvg" = Some qs
}.

(** The names a successful run binds in the namespace of the shim. *)
Definition common_names : gset string :=
  {["os"; "QT_API_PYQT"; "QT_API_PYSIDE"; "QT_API"; "QtCore"; "QtGui"; "QtSvg"]}.

Module Broken.

(** A host whose PyQt4 core module (object 3) has [pyqtSignal] (object
    20) but no [pyqtSlot], and a [Slot] of its own (object 40). *)
Definition objects : gmap loc (gmap string loc) :=
  {[3%positive := {["pyqtSignal" := 20%positive; "Slot" := 40%positive]}]}.

Definition no_slot : World := mkWorld ∅ Sample.modules ∅ objects ∅.

(** A host with sip installed and nothing else. *)
Definition sip_only : World := mkWorld ∅ {["sip" := 1%positive]} ∅ ∅ ∅.

End Broken.

(** Reading a [str] literal back: the inverse of [repr] on the escapes
    [repr] writes. *)
Module PyLiteral.

Definition printable (c : ascii) : bool :=
  (32 <=? N_of_ascii c)%N && (N_of_ascii c <? 127)%N.

Fixpoint all_printable (s : string) : bool :=
  match s with
  | EmptyString => true
  | String c s' => printable c && all_printable s'
  end.

(** The value of a lower-case hexadecimal digit. *)
Definition hex_value (c : ascii) : option N :=
  let n := N_of_ascii c in
  if (48 <=? n)%N && (n <=? 57)%N then Some (n - 48)%N
  else if (97 <=? n)%N && (n <=? 102)%N then Some (n - 87)%N
  else None.

Definition push (c : ascii) (p : string * string) : string * string :=
  (String c (fst p), snd p).

(** The text between the quotes: up to the first quote that is not
    escaped, with the escapes undone; the text after that quote is
    returned beside it. *)
Fixpoint unescape (quote : ascii) (s : string) : option (string * string) :=
  match s with
  | EmptyString => None
  | String c rest =>
      if Ascii.eqb c quote then Some (EmptyString, rest)
      else if Ascii.eqb c PyStr.backslash then
        match rest with
        | EmptyString => None
        | String e rest' =>
            if Ascii.eqb e "x" then
              match rest' with
              | String h1 (String h2 rest'') =>
                  match hex_value h1, hex_value h2 with
                  | Some a, Some b =>
                      push (ascii_of_N (16 * a + b)) <$> unescape quote rest''
                  | _, _ => None
                  end
              | _ => None
              end
            else if Ascii.eqb e "t" then push PyStr.tab <$> unescape quote rest'
            else if Ascii.eqb e "n" then push PyStr.newline <$> unescape quote rest'
            else if Ascii.eqb e "r" then push PyStr.creturn <$> unescape quote rest'
            else push e <$> unescape quote rest'
        end
      else push c <$> unescape quote rest
  end.

Definition parse (s : string) : option (string * string) :=
  match s with
  | EmptyString => None
  | String q body =>
      if Ascii.eqb q PyStr.squote || Ascii.eqb q PyStr.dquote
      then unescape q body else None
  end.

End PyLiteral.

(** The host a successful run of the PyQt branch leaves, [d] being the
    attributes the core module [qc] had. *)
Definition pyqt_world (w : World) (qc sg sl : loc) (d : gmap string loc) : World :=
  mkWorld (environ w) (installed w)
    ({["PyQt4.QtSvg"]} ∪ ({["PyQt4.QtGui"]} ∪ ({["PyQt4.QtCore"]} ∪
       ({["PyQt4"]} ∪ ({["sip"]} ∪ sys_modules w)))))
    (<[qc := <["Slot" := sl]> (<["Signal" := sg]> d)]> (heap w))
    (<["QVariant" := 2]> (<["QString" := 2]> (sip_api w))).

(** The host a successful run of the PySide branch leaves. *)
Definition pyside_world (w : World) : World :=
  mkWorld (environ w) (installed w)
    ({["PySide.QtSvg"]} ∪ ({["PySide.QtGui"]} ∪ ({["PySide.QtCore"]} ∪
       ({["PySide"]} ∪ sys_modules w))))
    (heap w) (sip_api w).

(** The host [w] with another process environment. *)
Definition with_environ (env : gmap string string) (w : World) : World :=
  mkWorld env (installed w) (sys_modules w) (heap w) (sip_api w).

(** Two states that differ at most in the environment variables other
    than [QT_API]. *)
Definition same_but_environ (st1 st2 : State) : Prop :=
  globals st1 = globals st2 /\
  trace st1 = trace st2 /\
  installed (world st1) = installed (world st2) /\
  sys_modules (world st1) = sys_modules (world st2) /\
  heap (world st1) = heap (world st2) /\
  sip_api (world st1) = sip_api (world st2) /\
  environ (world st1) !! "QT_API" = environ (world st2) !! "QT_API".

(** A computation that cannot tell such states apart. *)
Definition env_blind {A} (m : M A) : Prop :=
  forall st1 st2, same_but_environ st1 st2 ->
    same_but_environ (fst (m st1)) (fst (m st2)) /\ snd (m st1) = snd (m st2).

(** ** Checks of the byte-string model *)

Example repr_pyqt : PyStr.repr "pyqt" = "'pyqt'".
Proof. reflexivity. Qed.

Example repr_newline :
  PyStr.repr (String PyStr.newline EmptyString) = "'\n'".
Proof. reflexivity. Qed.

Example format_three :
  PyStr.format "Invalid Qt API %r, valid values are: %r or %r"
    ["gtk"; "pyqt"; "pyside"]
  = Some "Invalid Qt API 'gtk', valid values are: 'pyqt' or 'pyside'".
Proof. reflexivity. Qed.


(** ** Checks of the runs on the sample hosts *)

Example run_unset :
  outcome Sample.unset = inr tt /\
  trace (final Sample.unset) = (prologue_trace ++ pyqt_tail 3)%list.
Proof. split; vm_compute; reflexivity. Qed.

Example run_pyside :
  outcome (Sample.with_api "pyside") = inr tt /\
  trace (final (Sample.with_api "pyside")) = (prologue_trace ++ pyside_tail)%list.
Proof. split; vm_compute; reflexivity. Qed.

Example run_qtwidgets :
  outcome (Sample.with_api "qtwidgets") =
    inl (RuntimeError
           "Invalid Qt API 'qtwidgets', valid values are: 'pyqt' or 'pyside'").
Proof. vm_compute; reflexivity. Qed.

Example run_without_sip :
  outcome (Sample.bare ∅) = inl (ImportError "sip") /\
  trace (final (Sample.bare ∅)) = prologue_trace.
Proof. split; vm_compute; reflexivity. Qed.

Example run_without_pyside :
  outcome (Sample.bare {["QT_API" := "pyside"]}) = inl (ImportError "PySide").
Proof. vm_compute; reflexivity. Qed.

(** ** Facts about the byte-string model *)

Section PyStrFacts.
Import PyStr.

Lemma append_nil (t : string) : EmptyString +:+ t = t.
Proof. reflexivity. Qed.

Lemma append_cons (c : ascii) (s t : string) :
  String c s +:+ t = String c (s +:+ t).
Proof. reflexivity. Qed.

Lemma app_assoc_s (a b c : string) : (a +:+ b) +:+ c = a +:+ (b +:+ c).
Proof.
  induction a as [|x a IH]; [done|]. by rewrite !append_cons, IH.
Qed.

Lemma str_prefix_app (sub post : string) : String.prefix sub (sub +:+ post) = true.
Proof.
  induction sub as [|c sub IH].
  - rewrite append_nil. by destruct post.
  - rewrite append_cons. simpl. destruct (ascii_dec c c); [exact IH | done].
Qed.

Lemma str_prefix_split (sub s : string) :
  String.prefix sub s = true -> exists post, s = sub +:+ post.
Proof.
  revert s. induction sub as [|c sub IH]; intros s H.
  - by exists s.
  - destruct s as [|d s]; simpl in H; [done|].
    destruct (ascii_dec c d) as [->|]; [|done].
    destruct (IH _ H) as [post ->]. by exists post.
Qed.

Lemma contains_spec (s sub : string) :
  contains s sub = true <-> Contains s sub.
Proof.
  split.
  - induction s as [|c s IH]; cbn [contains]; intros H.
    + rewrite orb_false_r in H. destruct (str_prefix_split _ _ H) as [post ->].
      by exists EmptyString, post.
    + apply orb_true_iff in H as [H|H].
      * destruct (str_prefix_split _ _ H) as [post E].
        exists EmptyString, post. exact E.
      * destruct (IH H) as (pre & post & ->).
        by exists (String c pre), post.
  - intros (pre & post & ->).
    induction pre as [|c pre IH].
    + change (EmptyString +:+ sub +:+ post) with (sub +:+ post).
      pose proof (str_prefix_app sub post) as Hp.
      destruct (sub +:+ post); cbn [contains]; by rewrite Hp.
    + change (String c pre +:+ sub +:+ post) with (String c (pre +:+ sub +:+ post)).
      cbn [contains]. rewrite IH. apply orb_true_r.
Qed.

Lemma Contains_app_r (a s sub : string) : Contains s sub -> Contains (a +:+ s) sub.
Proof.
  intros (pre & post & ->). exists (a +:+ pre), post.
  by rewrite app_assoc_s.
Qed.

Lemma Contains_app_l (s b sub : string) : Contains s sub -> Contains (s +:+ b) sub.
Proof.
  intros (pre & post & ->). exists pre, (post +:+ b).
  by rewrite !app_assoc_s.
Qed.

Lemma Contains_refl (s : string) : Contains s s.
Proof.
  exists EmptyString, EmptyString. rewrite append_nil.
  induction s as [|c s IH]; [done | by rewrite append_cons, <- IH].
Qed.

Lemma Contains_trans (s t u : string) : Contains s t -> Contains t u -> Contains s u.
Proof.
  intros (p1 & q1 & ->) H. apply Contains_app_r, Contains_app_l, H.
Qed.

Lemma mem_plain (c : ascii) (s : string) :
  plain_char c = false -> plain s = true -> mem c s = false.
Proof.
  intros Hc. induction s as [|d s IH]; simpl; [done|].
  intros [Hd Hs]%andb_true_iff. rewrite (IH Hs), orb_false_r.
  destruct (Ascii.eqb_spec c d) as [->|]; [congruence | done].
Qed.

Lemma repr_char_plain (c : ascii) :
  plain_char c = true -> repr_char squote c = String c EmptyString.
Proof.
  unfold plain_char, repr_char. intros H.
  apply andb_true_iff in H as [H H4]. apply andb_true_iff in H as [H H3].
  apply andb_true_iff in H as [H1 H2].
  apply negb_true_iff in H1, H2. rewrite H1, H2. simpl.
  apply N.leb_le in H3. apply N.ltb_lt in H4.
  assert (Ascii.eqb c tab = false) as ->.
  { apply Ascii.eqb_neq. intros ->. change (N_of_ascii tab) with 9%N in H3. lia. }
  assert (Ascii.eqb c newline = false) as ->.
  { apply Ascii.eqb_neq. intros ->. change (N_of_ascii newline) with 10%N in H3. lia. }
  assert (Ascii.eqb c creturn = false) as ->.
  { apply Ascii.eqb_neq. intros ->. change (N_of_ascii creturn) with 13%N in H3. lia. }
  assert ((N_of_ascii c <? 32)%N = false) as -> by (apply N.ltb_ge; lia).
  assert ((127 <=? N_of_ascii c)%N = false) as -> by (apply N.leb_gt; lia).
  done.
Qed.

Lemma repr_body_plain (s : string) :
  plain s = true -> repr_body squote s = s.
Proof.
  induction s as [|c s IH]; simpl; [done|].
  intros [Hc Hs]%andb_true_iff. by rewrite repr_char_plain, IH, append_cons, append_nil.
Qed.

Lemma repr_plain (s : string) :
  plain s = true -> repr s = String squote (s +:+ String squote EmptyString).
Proof.
  intros H. unfold repr, repr_quote.
  rewrite (mem_plain squote s) by done. simpl. by rewrite repr_body_plain.
Qed.

Lemma repr_contains_plain (s : string) : plain s = true -> Contains (repr s) s.
Proof.
  intros H. rewrite repr_plain by done.
  by exists (String squote EmptyString), (String squote EmptyString).
Qed.

End PyStrFacts.

(** ** Symbolic execution of the module body *)

Lemma format_invalid (v : string) :
  PyStr.format "Invalid Qt API %r, valid values are: %r or %r"
    [v; QT_API_PYQT; QT_API_PYSIDE] = Some (invalid_message v).
Proof. reflexivity. Qed.

Ltac qt_red :=
  cbv beta iota zeta delta
    [bind ret raise import_os emit store environ_get import_name import_from
     setapi getattr setattr mark_loaded world globals trace environ installed
     sys_modules heap sip_api fst snd app String.append final outcome import_qt
     qt read_QT_API attr_of world_attr].

(** One step of the run: use what is known of the host, rewrite a lookup
    through an update, or split on the next question the body asks. *)
Ltac qt_case :=
  first
    [ match goal with
      | H : ?m !! ?k = _ |- context [match ?m !! ?k with _ => _ end] =>
          rewrite H; qt_red
      end
    | rewrite lookup_insert_eq; qt_red
    | rewrite lookup_insert_ne by done; qt_red
    | match goal with
      | |- context [match ?m !! ?k with _ => _ end] =>
          let E := fresh "E" in destruct (m !! k) eqn:E; qt_red
      | |- context [if Z.eqb ?a ?b then _ else _] =>
          let E := fresh "E" in destruct (Z.eqb_spec a b) as [E|E]; qt_red
      end ].

Ltac qt_core :=
  try match goal with
  | H : _ !! "PyQt4.QtCore" = Some _ |- _ => rewrite H
  end.

Ltac qt_str_cases :=
  repeat match goal with
  | |- context [String.eqb ?a ?b] =>
      first [ change (String.eqb a b) with true
            | change (String.eqb a b) with false ]
  end.

Lemma run_summary (w : World) :
  summary_at (installed w) (resolve w) (import_qt w).
Proof.
  assert (forall name, name ∈ ["QT_API_PYQT"; "QT_API_PYSIDE"; "QT_API"] ->
    name <> "sip" /\ name <> "QtCore" /\ name <> "QtGui" /\ name <> "QtSvg") as N.
  { intros name Hn.
    repeat (apply elem_of_cons in Hn as [->|Hn]; [done|]). by apply elem_of_nil in Hn. }
  destruct w as [env inst sysm hp sa]. unfold resolve.
  qt_red.
  generalize (match env !! "QT_API" with Some v => v | None => QT_API_PYQT end).
  intros v.
  destruct (String.eqb_spec v QT_API_PYQT) as [->|H1];
    [|destruct (String.eqb_spec v QT_API_PYSIDE) as [->|H2]].
  - qt_red. repeat qt_case.
    all: unfold summary_at, script_for, prologue_globals, prologue_trace, default, pyqt_tail;
      qt_core; qt_str_cases; qt_red.
    all: split; [by eexists|split; [by eexists|]].
    all: intros name (? & ? & ? & ?)%N; by rewrite ?lookup_insert_ne by done.
  - qt_red. repeat qt_case.
    all: unfold summary_at, script_for, prologue_globals, prologue_trace, pyside_tail;
      qt_str_cases; qt_red.
    all: split; [by eexists|split; [by eexists|]].
    all: intros name (? & ? & ? & ?)%N; by rewrite ?lookup_insert_ne by done.
  - unfold format. rewrite format_invalid. qt_red.
    unfold summary_at, script_for, prologue_globals, prologue_trace; qt_red.
    destruct (String.eqb_spec v QT_API_PYQT) as [|_]; [done|].
    destruct (String.eqb_spec v QT_API_PYSIDE) as [|_]; [done|].
    split; [by eexists|split; [by eexists|done]].
Qed.

(** The run on an unrecognised value, in full. *)
Lemma import_qt_invalid (w : World) (v : string) :
  environ w !! "QT_API" = Some v -> v <> QT_API_PYQT -> v <> QT_API_PYSIDE ->
  import_qt w =
    (mkState w (prologue_globals v) prologue_trace,
     inl (RuntimeError (invalid_message v))).
Proof.
  intros Hv H1 H2. destruct w as [env inst sysm hp sa]. simpl in Hv.
  qt_red. rewrite Hv.
  destruct (String.eqb_spec v QT_API_PYQT) as [?|_]; [done|].
  destruct (String.eqb_spec v QT_API_PYSIDE) as [?|_]; [done|].
  unfold format. by rewrite format_invalid.
Qed.


Ltac map_lookups :=
  repeat first
    [ rewrite lookup_insert_eq
    | rewrite lookup_insert_ne by done
    | progress simpl ].

Lemma import_qt_pyqt (w : World) (qc qg qs sg sl : loc) :
  resolve w = QT_API_PYQT ->
  provides_pyqt w qc qg qs sg sl ->
  pyqt_post qc qg qs sg sl (import_qt w).
Proof.
  intros Hv [[sip Hsip] Hs Hq [pkg Hpkg] Hc Hg Hsv Hsg Hsl].
  unfold world_attr in Hsg, Hsl. unfold resolve in Hv.
  unfold sip_accepts in Hs, Hq.
  destruct w as [env inst sysm hp sa]. simpl in *.
  destruct (hp !! qc) as [d|] eqn:Hd; [|done]. simpl in Hsg, Hsl.
  qt_red. rewrite Hv. qt_str_cases. qt_red.
  destruct Hs as [Hs|Hs], Hq as [Hq|Hq].
  all: repeat qt_case; try done.
  all: unfold pyqt_post, pyqt4_modules, prologue_trace, pyqt_tail; qt_red.
  all: repeat split; try by map_lookups.
  all: intros n Hn; rewrite !elem_of_union, !elem_of_singleton;
    repeat (apply elem_of_cons in Hn as [->|Hn]; [by auto 10|]);
    by apply elem_of_nil in Hn.
Qed.

Lemma import_qt_pyside (w : World) (qc qg qs : loc) :
  environ w !! "QT_API" = Some QT_API_PYSIDE ->
  provides_pyside w qc qg qs ->
  pyside_post qc qg qs (import_qt w).
Proof.
  intros Hv [[pkg Hpkg] Hc Hg Hsv].
  destruct w as [env inst sysm hp sa]. simpl in *.
  qt_red. rewrite Hv. qt_str_cases. qt_red.
  repeat qt_case.
  unfold pyside_post, prologue_trace, pyside_tail; qt_red.
  repeat split; try by map_lookups.
  intros n Hn; rewrite !elem_of_union, !elem_of_singleton;
    repeat (apply elem_of_cons in Hn as [->|Hn]; [by auto 10|]);
    by apply elem_of_nil in Hn.
Qed.

Lemma import_qt_pyside_frame (w : World) :
  environ w !! "QT_API" = Some QT_API_PYSIDE ->
  pyside_frame w (import_qt w).
Proof.
  intros Hv. destruct w as [env inst sysm hp sa]. simpl in *.
  qt_red. rewrite Hv. qt_str_cases. qt_red.
  repeat qt_case. all: by unfold pyside_frame.
Qed.

(** ** Facts about traces *)

Lemma precedes_b_sound (a b : event) (tr : list event) (seen : bool) :
  precedes_b a b seen tr = true ->
  forall j, tr !! j = Some b ->
    seen = true \/ exists i, (i < j)%nat /\ tr !! i = Some a.
Proof.
  revert seen. induction tr as [|e tr IH]; intros seen H j Hj; [done|].
  simpl in H. apply andb_true_iff in H as [Hhd Htl].
  destruct j as [|j]; simpl in Hj.
  - injection Hj as ->. rewrite bool_decide_eq_true_2 in Hhd by done. by left.
  - destruct (IH _ Htl j Hj) as [Hs|(i & Hi & Hl)].
    + apply orb_true_iff in Hs as [Hs|Hs]; [by left|].
      apply bool_decide_eq_true_1 in Hs as ->.
      right. exists 0%nat. split; [lia|done].
    + right. exists (S i). split; [lia|done].
Qed.

Lemma precedes_check (a b : event) (tr : list event) :
  precedes_b a b false tr = true -> precedes a b tr.
Proof.
  intros H j Hj. by destruct (precedes_b_sound _ _ _ _ H j Hj).
Qed.

Lemma precedes_prefix (a b : event) (tr full : list event) :
  tr `prefix_of` full -> precedes a b full -> precedes a b tr.
Proof.
  intros Hp Hfull j Hj.
  destruct (Hfull j (prefix_lookup_Some _ _ _ _ Hj Hp)) as (i & Hi & Hl).
  exists i. split; [done|].
  destruct Hp as [k ->]. rewrite lookup_app_l in Hl; [done|].
  apply lookup_lt_Some in Hj. lia.
Qed.

Lemma count_prefix (p : event -> bool) (tr full : list event) :
  tr `prefix_of` full -> (count p tr <= count p full)%nat.
Proof.
  intros [k ->]. unfold count. rewrite filter_app, length_app. lia.
Qed.

Lemma pyqt_script_ordered (qc : loc) (api n : string) :
  api ∈ ["QString"; "QVariant"] -> n ∈ pyqt4_modules ->
  precedes (EvSetApi api 2) (EvImport n) (prologue_trace ++ pyqt_tail qc).
Proof.
  intros Ha Hn. apply precedes_check.
  repeat (apply elem_of_cons in Ha as [->|Ha]);
    [..|by apply elem_of_nil in Ha].
  all: repeat (apply elem_of_cons in Hn as [->|Hn]);
    [..|by apply elem_of_nil in Hn].
  all: vm_compute; reflexivity.
Qed.

Lemma script_pyqt (w : World) :
  resolve w = QT_API_PYQT ->
  script w =
    (prologue_trace ++
     pyqt_tail (default 1%positive (installed w !! "PyQt4.QtCore")))%list.
Proof. intros Hv. unfold script, script_for. by rewrite Hv. Qed.

Lemma script_pyside (w : World) :
  resolve w = QT_API_PYSIDE -> script w = (prologue_trace ++ pyside_tail)%list.
Proof. intros Hv. unfold script, script_for. by rewrite Hv. Qed.

(** The summary of a run, on [final]. *)
Lemma trace_bounds (w : World) :
  prologue_trace `prefix_of` trace (final w) /\
  trace (final w) `prefix_of` script w.
Proof. destruct (run_summary w) as (H1 & H2 & _). by split. Qed.

Lemma globals_bounds (w : World) (name : string) :
  name ∈ ["QT_API_PYQT"; "QT_API_PYSIDE"; "QT_API"] ->
  globals (final w) !! name = prologue_globals (resolve w) !! name.
Proof. destruct (run_summary w) as (_ & _ & H). apply H. Qed.

(** ** The unrecognised configuration value *)

Lemma invalid_message_contains (v : string) :
  PyStr.Contains (invalid_message v) (PyStr.repr v) /\
  PyStr.Contains (invalid_message v) QT_API_PYQT /\
  PyStr.Contains (invalid_message v) QT_API_PYSIDE.
Proof.
  unfold invalid_message. split; [|split].
  - apply Contains_app_r, Contains_app_l, Contains_refl.
  - do 3 apply Contains_app_r. apply Contains_app_l.
    by exists "'", "'".
  - do 5 apply Contains_app_r. by exists "'", "'".
Qed.

(** C1, as amended.  For every value [v] of [QT_API] other than the two
    identifiers, the import raises at once: the outcome is a
    [RuntimeError], nothing was done beyond the prologue and the host is
    as it was.  The message contains [repr(v)] and both identifiers; it
    contains [v] itself whenever [v] is made of printable ASCII bytes
    other than the single quote and the backslash. *)
Theorem invalid_value_raises (w : World) (v : string) :
  environ w !! "QT_API" = Some v -> v <> QT_API_PYQT -> v <> QT_API_PYSIDE ->
  exists msg,
    outcome w = inl (RuntimeError msg) /\
    trace (final w) = prologue_trace /\
    world (final w) = w /\
    PyStr.Contains msg (PyStr.repr v) /\
    PyStr.Contains msg QT_API_PYQT /\
    PyStr.Contains msg QT_API_PYSIDE /\
    (PyStr.plain v = true -> PyStr.Contains msg v).
Proof.
  intros Hv H1 H2. exists (invalid_message v).
  unfold outcome, final. rewrite (import_qt_invalid w v Hv H1 H2). simpl.
  destruct (invalid_message_contains v) as (Hr & Ha & Hb).
  repeat split; try done.
  intros Hp. eapply Contains_trans; [exact Hr|]. by apply repr_contains_plain.
Qed.

Lemma invalid_value_raises_witness :
  environ (Sample.with_api "qtwidgets") !! "QT_API" = Some "qtwidgets" /\
  exists msg,
    outcome (Sample.with_api "qtwidgets") = inl (RuntimeError msg) /\
    PyStr.Contains msg "qtwidgets" /\
    PyStr.Contains msg "pyqt" /\ PyStr.Contains msg "pyside".
Proof.
  assert (environ (Sample.with_api "qtwidgets") !! "QT_API" = Some "qtwidgets")
    as Hv by reflexivity.
  split; [exact Hv|].
  destruct (invalid_value_raises (Sample.with_api "qtwidgets") "qtwidgets" Hv)
    as (msg & Ho & _ & _ & _ & Ha & Hb & Hp); [discriminate..|].
  exists msg. repeat split; try done. by apply Hp.
Defined.

(** C1, as stated, fails: with [QT_API] set to a single newline the
    message is [Invalid Qt API '\n', ...], written with a backslash and
    the letter n, and the newline itself occurs nowhere in it. *)
Lemma newline_value_not_in_message :
  let v := String PyStr.newline EmptyString in
  environ (Sample.with_api v) !! "QT_API" = Some v /\
  v <> QT_API_PYQT /\ v <> QT_API_PYSIDE /\
  exists msg,
    outcome (Sample.with_api v) = inl (RuntimeError msg) /\
    msg = "Invalid Qt API '\n', valid values are: 'pyqt' or 'pyside'" /\
    ~ PyStr.Contains msg v.
Proof.
  intros v. split; [reflexivity|]. split; [discriminate|]. split; [discriminate|].
  eexists. split; [vm_compute; reflexivity|]. split; [reflexivity|].
  intros H%contains_spec. vm_compute in H. discriminate.
Qed.

(** ** The two bindings *)

Lemma resolve_pyqt (w : World) :
  environ w !! "QT_API" = None \/ environ w !! "QT_API" = Some "pyqt" ->
  resolve w = QT_API_PYQT.
Proof. unfold resolve. by intros [-> | ->]. Qed.

Lemma read_QT_API_resolve (w : World) :
  read_QT_API (final w) = Some (VStr (resolve w)).
Proof.
  unfold read_QT_API. rewrite globals_bounds by (by repeat constructor).
  unfold prologue_globals. by rewrite lookup_insert_eq.
Qed.

Lemma sample_provides_pyqt (env : gmap string string) :
  provides_pyqt (Sample.host env) 3 4 5 20 21.
Proof.
  split; try (vm_compute; reflexivity); try (left; vm_compute; reflexivity);
    eexists; vm_compute; reflexivity.
Defined.

Lemma sample_provides_pyside (env : gmap string string) :
  provides_pyside (Sample.host env) 7 8 9.
Proof.
  split; try (vm_compute; reflexivity); eexists; vm_compute; reflexivity.
Defined.

(** C2.  Whenever [QT_API] is unset or equals ["pyqt"], the identity the
    shim resolves is ["pyqt"]; and in a host that provides the binding the
    import succeeds, the three handles [QtCore], [QtGui] and [QtSvg] are
    the PyQt4 modules, which are loaded, and on the core module [Signal]
    is the very object [pyqtSignal] and [Slot] the very object
    [pyqtSlot]. *)
Theorem pyqt_selected (w : World) (qc qg qs sg sl : loc) :
  environ w !! "QT_API" = None \/ environ w !! "QT_API" = Some "pyqt" ->
  provides_pyqt w qc qg qs sg sl ->
  read_QT_API (final w) = Some (VStr "pyqt") /\
  outcome w = inr tt /\
  (globals (final w) !! "QtCore" = Some (VRef qc) /\
   globals (final w) !! "QtGui" = Some (VRef qg) /\
   globals (final w) !! "QtSvg" = Some (VRef qs)) /\
  (forall n, n ∈ pyqt4_modules -> n ∈ sys_modules (world (final w))) /\
  (attr_of (final w) qc "Signal" = Some sg /\
   attr_of (final w) qc "pyqtSignal" = Some sg) /\
  (attr_of (final w) qc "Slot" = Some sl /\
   attr_of (final w) qc "pyqtSlot" = Some sl).
Proof.
  intros Hv%resolve_pyqt Hw.
  split; [by rewrite read_QT_API_resolve, Hv|].
  destruct (import_qt_pyqt w qc qg qs sg sl Hv Hw)
    as (Ho & _ & Hg & (Ha1 & Ha2 & Ha3 & Ha4) & _ & Hm).
  done.
Qed.

Lemma pyqt_selected_witness :
  environ Sample.unset !! "QT_API" = None /\
  provides_pyqt Sample.unset 3 4 5 20 21 /\
  outcome Sample.unset = inr tt /\
  attr_of (final Sample.unset) 3 "Signal" = Some 20%positive /\
  attr_of (final Sample.unset) 3 "pyqtSignal" = Some 20%positive.
Proof.
  assert (environ Sample.unset !! "QT_API" = None) as Hv by reflexivity.
  split; [exact Hv|]. split; [apply sample_provides_pyqt|].
  destruct (pyqt_selected Sample.unset 3 4 5 20 21 (or_introl Hv)
              (sample_provides_pyqt ∅))
    as (_ & Ho & _ & _ & (Ha & Hb) & _).
  split; [exact Ho|]. split; [exact Ha|exact Hb].
Defined.

(** C3.  Whenever [QT_API] equals ["pyside"], no run calls [sip.setapi]
    or assigns an attribute, and the attributes of every module object
    and sip's API table are left as they were; and in a host that
    provides the binding the import succeeds, and the three handles are
    the PySide modules, which are loaded. *)
Theorem pyside_selected (w : World) :
  environ w !! "QT_API" = Some "pyside" ->
  read_QT_API (final w) = Some (VStr "pyside") /\
  Forall (fun e => is_setapi e = false /\ is_setattr e = false) (trace (final w)) /\
  heap (world (final w)) = heap w /\
  sip_api (world (final w)) = sip_api w /\
  forall qc qg qs, provides_pyside w qc qg qs ->
    outcome w = inr tt /\
    (globals (final w) !! "QtCore" = Some (VRef qc) /\
     globals (final w) !! "QtGui" = Some (VRef qg) /\
     globals (final w) !! "QtSvg" = Some (VRef qs)) /\
    (forall n, n ∈ ["PySide"; "PySide.QtCore"; "PySide.QtGui"; "PySide.QtSvg"] ->
       n ∈ sys_modules (world (final w))) /\
    attr_of (final w) qc "Signal" = world_attr w qc "Signal" /\
    attr_of (final w) qc "Slot" = world_attr w qc "Slot".
Proof.
  intros Hv.
  assert (resolve w = QT_API_PYSIDE) as Hr by (unfold resolve; by rewrite Hv).
  destruct (import_qt_pyside_frame w Hv) as (Hh & Hs).
  split; [by rewrite read_QT_API_resolve, Hr|].
  split.
  { destruct (trace_bounds w) as (_ & [k Hk]).
    rewrite (script_pyside w Hr) in Hk.
    assert (Forall (fun e => is_setapi e = false /\ is_setattr e = false)
              (trace (final w) ++ k)) as HF.
    { rewrite <- Hk. vm_compute. repeat constructor. }
    by apply Forall_app in HF as [HF _]. }
  split; [done|]. split; [done|].
  intros qc qg qs Hw.
  destruct (import_qt_pyside w qc qg qs Hv Hw) as (Ho & _ & Hg & Hm).
  repeat split; try done; try apply Hg.
  - unfold attr_of, world_attr. fold (final w) in Hh. by rewrite Hh.
  - unfold attr_of, world_attr. fold (final w) in Hh. by rewrite Hh.
Qed.

Lemma pyside_selected_witness :
  environ (Sample.with_api "pyside") !! "QT_API" = Some "pyside" /\
  provides_pyside (Sample.with_api "pyside") 7 8 9 /\
  outcome (Sample.with_api "pyside") = inr tt /\
  globals (final (Sample.with_api "pyside")) !! "QtCore" = Some (VRef 7) /\
  attr_of (final (Sample.with_api "pyside")) 7 "Signal" = Some 30%positive.
Proof.
  assert (environ (Sample.with_api "pyside") !! "QT_API" = Some "pyside")
    as Hv by reflexivity.
  split; [exact Hv|]. split; [apply sample_provides_pyside|].
  destruct (pyside_selected (Sample.with_api "pyside") Hv) as (_ & _ & _ & _ & H).
  destruct (H 7 8 9 (sample_provides_pyside _))%positive
    as (Ho & (Hc & _) & _ & Hs & _).
  split; [exact Ho|]. split; [exact Hc|]. rewrite Hs. reflexivity.
Defined.

(** C4.  In every run that selects the PyQt binding, whatever the host
    answers, each import of the PyQt4 package or of one of its modules
    has [sip.setapi('QString', 2)] and [sip.setapi('QVariant', 2)]
    strictly before it in the trace; and in a host that provides the
    binding both calls are made, all four imports are made, and sip ends
    with both APIs at version 2. *)
Theorem setapi_before_pyqt4_imports (w : World) :
  resolve w = QT_API_PYQT ->
  (forall api n, api ∈ ["QString"; "QVariant"] -> n ∈ pyqt4_modules ->
     precedes (EvSetApi api 2) (EvImport n) (trace (final w))) /\
  forall qc qg qs sg sl, provides_pyqt w qc qg qs sg sl ->
    (forall api, api ∈ ["QString"; "QVariant"] ->
       EvSetApi api 2 ∈ trace (final w) /\
       sip_api (world (final w)) !! api = Some 2) /\
    (forall n, n ∈ pyqt4_modules -> EvImport n ∈ trace (final w)).
Proof.
  intros Hv. split.
  - intros api n Ha Hn.
    destruct (trace_bounds w) as (_ & Hp).
    rewrite (script_pyqt w Hv) in Hp.
    eapply precedes_prefix; [exact Hp|]. by apply pyqt_script_ordered.
  - intros qc qg qs sg sl Hw.
    destruct (import_qt_pyqt w qc qg qs sg sl Hv Hw)
      as (_ & Ht & _ & _ & (Hs1 & Hs2) & _).
    fold (final w) in Ht, Hs1, Hs2. rewrite Ht. split.
    + intros api Ha.
      repeat (apply elem_of_cons in Ha as [->|Ha]);
        [..|by apply elem_of_nil in Ha].
      all: split; [|done].
      all: apply list_elem_of_In; vm_compute; tauto.
    + intros n Hn.
      repeat (apply elem_of_cons in Hn as [->|Hn]);
        [..|by apply elem_of_nil in Hn].
      all: apply list_elem_of_In; vm_compute; tauto.
Qed.

Lemma setapi_before_pyqt4_imports_witness :
  resolve Sample.unset = QT_API_PYQT /\
  precedes (EvSetApi "QVariant" 2) (EvImport "PyQt4.QtCore")
    (trace (final Sample.unset)) /\
  EvSetApi "QVariant" 2 ∈ trace (final Sample.unset) /\
  EvImport "PyQt4.QtCore" ∈ trace (final Sample.unset).
Proof.
  assert (resolve Sample.unset = QT_API_PYQT) as Hv by reflexivity.
  split; [exact Hv|].
  destruct (setapi_before_pyqt4_imports Sample.unset Hv) as (Hord & Hdone).
  destruct (Hdone 3 4 5 20 21 (sample_provides_pyqt ∅))%positive as (Hs & Hi).
  split; [apply Hord; apply list_elem_of_In; simpl; tauto|].
  split; [apply Hs | apply Hi]; apply list_elem_of_In; simpl; tauto.
Defined.

(** ** The error path *)

(** C5.  On an unrecognised value the import fails and leaves the host
    as it found it: the loaded modules, the attributes of module objects
    and sip's API table are unchanged, and the trace holds no import of
    sip or of a binding, no [sip.setapi] and no attribute assignment. *)
Theorem invalid_value_no_side_effects (w : World) (v : string) :
  environ w !! "QT_API" = Some v -> v <> QT_API_PYQT -> v <> QT_API_PYSIDE ->
  (exists msg, outcome w = inl (RuntimeError msg)) /\
  world (final w) = w /\
  Forall (fun e => is_foreign_import e = false /\ is_setapi e = false /\
                   is_setattr e = false) (trace (final w)).
Proof.
  intros Hv H1 H2. unfold outcome, final.
  rewrite (import_qt_invalid w v Hv H1 H2). simpl.
  split; [by eexists|]. split; [done|].
  unfold prologue_trace. repeat constructor.
Qed.

Lemma invalid_value_no_side_effects_witness :
  environ (Sample.with_api "gtk") !! "QT_API" = Some "gtk" /\
  world (final (Sample.with_api "gtk")) = Sample.with_api "gtk".
Proof.
  assert (environ (Sample.with_api "gtk") !! "QT_API" = Some "gtk")
    as Hv by reflexivity.
  split; [exact Hv|].
  destruct (invalid_value_no_side_effects (Sample.with_api "gtk") "gtk" Hv)
    as (_ & Hw & _); [discriminate..|exact Hw].
Defined.

(** C6.  With [QT_API] set to the empty string the import raises the
    configuration error and the identity kept is the empty string, not
    the default; and in any host, if the identity resolved is ["pyqt"],
    the variable was absent or was ["pyqt"] itself. *)
Theorem empty_string_is_invalid (w : World) :
  environ w !! "QT_API" = Some EmptyString ->
  outcome w =
    inl (RuntimeError "Invalid Qt API '', valid values are: 'pyqt' or 'pyside'") /\
  read_QT_API (final w) = Some (VStr EmptyString) /\
  forall w', read_QT_API (final w') = Some (VStr QT_API_PYQT) ->
    environ w' !! "QT_API" = None \/ environ w' !! "QT_API" = Some QT_API_PYQT.
Proof.
  intros Hv. split; [|split].
  - unfold outcome. by rewrite (import_qt_invalid w EmptyString Hv).
  - rewrite read_QT_API_resolve. unfold resolve. by rewrite Hv.
  - intros w'. rewrite read_QT_API_resolve. unfold resolve.
    destruct (environ w' !! "QT_API") as [v|]; [|by left].
    intros [= ->]. by right.
Qed.

Lemma empty_string_is_invalid_witness :
  environ (Sample.with_api EmptyString) !! "QT_API" = Some EmptyString /\
  outcome (Sample.with_api EmptyString) =
    inl (RuntimeError "Invalid Qt API '', valid values are: 'pyqt' or 'pyside'").
Proof.
  assert (environ (Sample.with_api EmptyString) !! "QT_API" = Some EmptyString)
    as Hv by reflexivity.
  split; [exact Hv|].
  exact (proj1 (empty_string_is_invalid (Sample.with_api EmptyString) Hv)).
Defined.

(** ** The resolved identity *)

Lemma count_script (w : World) (p : event -> bool) :
  (forall qc, count p (prologue_trace ++ pyqt_tail qc) = count p prologue_trace) ->
  count p (prologue_trace ++ pyside_tail) = count p prologue_trace ->
  count p (script w) = count p prologue_trace.
Proof.
  intros Ha Hb. unfold script, script_for.
  destruct (String.eqb _ QT_API_PYQT); [apply Ha|].
  destruct (String.eqb _ QT_API_PYSIDE); [apply Hb|].
  by rewrite app_nil_r.
Qed.

Lemma count_run (w : World) (p : event -> bool) (n : nat) :
  count p prologue_trace = n ->
  (forall qc, count p (prologue_trace ++ pyqt_tail qc) = n) ->
  count p (prologue_trace ++ pyside_tail) = n ->
  count p (trace (final w)) = n.
Proof.
  intros H0 Ha Hb. destruct (trace_bounds w) as (Hlo & Hhi).
  apply (count_prefix p) in Hlo, Hhi.
  rewrite (count_script w p) in Hhi by (intros; rewrite ?Ha, ?Hb; done).
  lia.
Qed.

(** C7.  In every run the environment is read exactly once and [QT_API]
    is bound exactly once, to the identity resolved from the
    environment at that time; reading the attribute afterwards gives
    that value, also after the process environment has been changed. *)
Theorem identity_read_once_and_fixed (w : World) :
  count is_env_read (trace (final w)) = 1%nat /\
  count (is_store_of "QT_API") (trace (final w)) = 1%nat /\
  read_QT_API (final w) = Some (VStr (resolve w)) /\
  forall key v,
    read_QT_API (putenv key v (final w)) = read_QT_API (final w) /\
    read_QT_API (unsetenv key (final w)) = read_QT_API (final w).
Proof.
  split; [|split; [|split]].
  - by apply count_run.
  - by apply count_run.
  - apply read_QT_API_resolve.
  - done.
Qed.

(** C8.  A value that only becomes ["pyqt"] or ["pyside"] once it is
    lower-cased and stripped of surrounding whitespace is not one of the
    two identifiers: the import raises the configuration error naming
    the value as given, and the identity kept is the value as given. *)
Theorem matching_is_exact (w : World) (v : string) :
  environ w !! "QT_API" = Some v ->
  Normalise.normalise v = QT_API_PYQT \/ Normalise.normalise v = QT_API_PYSIDE ->
  v <> QT_API_PYQT -> v <> QT_API_PYSIDE ->
  outcome w = inl (RuntimeError (invalid_message v)) /\
  read_QT_API (final w) = Some (VStr v).
Proof.
  intros Hv _ H1 H2. split.
  - unfold outcome. by rewrite (import_qt_invalid w v Hv H1 H2).
  - rewrite read_QT_API_resolve. unfold resolve. by rewrite Hv.
Qed.

Lemma matching_is_exact_witness :
  (environ (Sample.with_api "PyQt") !! "QT_API" = Some "PyQt" /\
   Normalise.normalise "PyQt" = QT_API_PYQT /\
   outcome (Sample.with_api "PyQt") =
     inl (RuntimeError "Invalid Qt API 'PyQt', valid values are: 'pyqt' or 'pyside'")) /\
  (environ (Sample.with_api " pyqt") !! "QT_API" = Some " pyqt" /\
   Normalise.normalise " pyqt" = QT_API_PYQT /\
   outcome (Sample.with_api " pyqt") =
     inl (RuntimeError "Invalid Qt API ' pyqt', valid values are: 'pyqt' or 'pyside'")) /\
  (environ (Sample.with_api "PYSIDE ") !! "QT_API" = Some "PYSIDE " /\
   Normalise.normalise "PYSIDE " = QT_API_PYSIDE /\
   outcome (Sample.with_api "PYSIDE ") =
     inl (RuntimeError "Invalid Qt API 'PYSIDE ', valid values are: 'pyqt' or 'pyside'")).
Proof.
  split; [|split].
  - split; [reflexivity|]. split; [reflexivity|].
    refine (proj1 (matching_is_exact (Sample.with_api "PyQt") "PyQt" _ _ _ _));
      [reflexivity | left; reflexivity | discriminate | discriminate].
  - split; [reflexivity|]. split; [reflexivity|].
    refine (proj1 (matching_is_exact (Sample.with_api " pyqt") " pyqt" _ _ _ _));
      [reflexivity | left; reflexivity | discriminate | discriminate].
  - split; [reflexivity|]. split; [reflexivity|].
    refine (proj1 (matching_is_exact (Sample.with_api "PYSIDE ") "PYSIDE " _ _ _ _));
      [reflexivity | right; reflexivity | discriminate | discriminate].
Defined.

(** C9.  In every run, also one that fails, the namespace of the shim
    binds [QT_API] to the identity resolved and the constants
    [QT_API_PYQT] and [QT_API_PYSIDE] to ["pyqt"] and ["pyside"]. *)
Theorem namespace_exposes_identity (w : World) :
  globals (final w) !! "QT_API" = Some (VStr (resolve w)) /\
  globals (final w) !! "QT_API_PYQT" = Some (VStr "pyqt") /\
  globals (final w) !! "QT_API_PYSIDE" = Some (VStr "pyside").
Proof.
  rewrite !globals_bounds by (apply list_elem_of_In; simpl; tauto).
  unfold prologue_globals. by map_lookups.
Qed.

(** C10.  The error for an unrecognised value [v] is a [RuntimeError]
    whose message is the template
    [Invalid Qt API %r, valid values are: %r or %r] applied to [v],
    ["pyqt"] and ["pyside"]: the text [Invalid Qt API ], [repr(v)], then
    [, valid values are: 'pyqt' or 'pyside']. *)
Theorem invalid_value_runtime_error (w : World) (v : string) :
  environ w !! "QT_API" = Some v -> v <> QT_API_PYQT -> v <> QT_API_PYSIDE ->
  exists msg,
    outcome w = inl (RuntimeError msg) /\
    PyStr.format "Invalid Qt API %r, valid values are: %r or %r"
      [v; QT_API_PYQT; QT_API_PYSIDE] = Some msg /\
    msg = "Invalid Qt API " +:+ PyStr.repr v +:+
          ", valid values are: 'pyqt' or 'pyside'".
Proof.
  intros Hv H1 H2. exists (invalid_message v). split; [|split].
  - unfold outcome. by rewrite (import_qt_invalid w v Hv H1 H2).
  - apply format_invalid.
  - reflexivity.
Qed.

Lemma invalid_value_runtime_error_witness :
  environ (Sample.with_api "gtk3") !! "QT_API" = Some "gtk3" /\
  exists msg,
    outcome (Sample.with_api "gtk3") = inl (RuntimeError msg) /\
    msg = "Invalid Qt API 'gtk3', valid values are: 'pyqt' or 'pyside'".
Proof.
  assert (environ (Sample.with_api "gtk3") !! "QT_API" = Some "gtk3")
    as Hv by reflexivity.
  split; [exact Hv|].
  destruct (invalid_value_runtime_error (Sample.with_api "gtk3") "gtk3" Hv)
    as (msg & Ho & _ & Hm); [discriminate..|].
  exists msg. split; [exact Ho|exact Hm].
Defined.

(** ** Every run: errors, success and frame *)

Ltac in_list := apply list_elem_of_In; simpl; tauto.

Ltac qt_frame :=
  unfold frame; qt_red;
  split; [reflexivity|]; split; [reflexivity|];
  split; [intros x Hx; rewrite ?elem_of_union; tauto|];
  split;
  [ intros obj attr Hoa
  | intros api Ha1 Ha2; by rewrite ?lookup_insert_ne by done ].

Ltac qt_known :=
  repeat match goal with
  | H : ?m !! ?k = _ |- context [?m !! ?k] => rewrite H
  end.

Ltac qt_attr :=
  lazymatch goal with
  | Hoa : _ \/ _, Hc : _ !! "PyQt4.QtCore" = Some ?qc, Hd : _ !! ?qc = Some _
    |- context [_ !! ?obj ≫= _] =>
      destruct (decide (obj = qc)) as [->|?];
      [ destruct Hoa as [Hoa|[? ?]]; [congruence|];
        rewrite lookup_insert_eq, Hd; simpl; by rewrite !lookup_insert_ne by done
      | by rewrite !lookup_insert_ne by done ]
  end.

Ltac qt_explain :=
  unfold explains, provides_selected, sip_accepts, world_attr, pyqt4_modules,
    pyside_modules;
  cbn [installed heap sip_api];
  lazymatch goal with
  | |- _ /\ ((_ /\ _) \/ _) =>
      split; [assumption|]; first [left; split; [done|in_list] | right; split; [done|in_list]]
  | |- _ /\ (_ \/ _) /\ _ =>
      split; [done|]; split; [tauto|]; eexists; split; [eassumption|];
      first [assumption | qt_known; simpl; assumption | qt_known; done]
  | |- _ \/ _ =>
      first [left; split; [done|]; do 5 eexists | right; split; [done|]; do 3 eexists];
      split; unfold sip_accepts, world_attr; cbn [installed heap sip_api];
      qt_known; subst; simpl; eauto;
      qt_known; simpl; eassumption
  end.

Lemma run_audit (w : World) : audit_at w (resolve w) (import_qt w).
Proof.
  destruct w as [env inst sysm hp sa]. unfold resolve.
  qt_red.
  generalize (match env !! "QT_API" with Some v => v | None => QT_API_PYQT end).
  intros v.
  destruct (String.eqb_spec v QT_API_PYQT) as [->|H1];
    [|destruct (String.eqb_spec v QT_API_PYSIDE) as [->|H2]].
  - qt_red. repeat qt_case.
    all: unfold audit_at; split; [cbn [snd]|split; [cbn [fst world]; qt_frame|]].
    all: try reflexivity.
    all: try qt_attr.
    all: try qt_explain.
    all: cbn [fst snd world heap]; auto.
  - qt_red. repeat qt_case.
    all: unfold audit_at; split; [cbn [snd]|split; [cbn [fst world]; qt_frame|]].
    all: try reflexivity.
    all: try qt_explain.
    all: cbn [fst snd world heap]; auto.
  - unfold format. rewrite format_invalid. qt_red.
    unfold audit_at; split; [cbn [snd]|split; [cbn [fst world]; qt_frame; reflexivity|]].
    + by unfold explains.
    + cbn [fst snd world heap]; auto.
Qed.

Lemma resolve_not_pyqt (w : World) :
  resolve w <> QT_API_PYQT -> environ w !! "QT_API" = Some (resolve w).
Proof. unfold resolve. by destruct (environ w !! "QT_API"). Qed.

(** X1.  The import raises [RuntimeError] exactly when the identity
    resolved is neither ["pyqt"] nor ["pyside"], and the message is then
    the one built from that identity: a host that lacks a library or an
    attribute never produces a [RuntimeError]. *)
Theorem runtime_error_iff_unrecognised (w : World) (msg : string) :
  outcome w = inl (RuntimeError msg) <->
  resolve w <> QT_API_PYQT /\ resolve w <> QT_API_PYSIDE /\
  msg = invalid_message (resolve w).
Proof.
  split.
  - intros Ho. destruct (run_audit w) as (He & _ & _).
    fold (outcome w) in He. by rewrite Ho in He.
  - intros (H1 & H2 & ->). unfold outcome.
    by rewrite (import_qt_invalid w _ (resolve_not_pyqt w H1) H1 H2).
Qed.



Lemma resolve_pyside (w : World) :
  resolve w = QT_API_PYSIDE -> environ w !! "QT_API" = Some QT_API_PYSIDE.
Proof.
  intros H. pose proof (resolve_not_pyqt w) as Hn. rewrite H in Hn. by apply Hn.
Qed.

(** X3.  The import succeeds exactly when the host provides the binding
    that the resolved identity selects; in particular a successful import
    means the identity is one of the two identifiers. *)
Theorem success_iff_binding_provided (w : World) :
  outcome w = inr tt <->
  (resolve w = QT_API_PYQT /\
   exists qc qg qs sg sl, provides_pyqt w qc qg qs sg sl) \/
  (resolve w = QT_API_PYSIDE /\
   exists qc qg qs, provides_pyside w qc qg qs).
Proof.
  split.
  - intros Ho. destruct (run_audit w) as (He & _ & _).
    fold (outcome w) in He. by rewrite Ho in He.
  - intros [(Hv & qc & qg & qs & sg & sl & Hw)|(Hv & qc & qg & qs & Hw)].
    + by destruct (import_qt_pyqt w qc qg qs sg sl Hv Hw) as (Ho & _).
    + by destruct (import_qt_pyside w qc qg qs (resolve_pyside w Hv) Hw)
        as (Ho & _).
Qed.

(** X4.  Whatever the configuration and the host, and also when the
    import fails, a run leaves [os.environ] and the installed modules as
    they were and unloads no module; the only attributes it can change
    are [Signal] and [Slot] of the PyQt4 core module, and the only sip
    APIs it can change are [QString] and [QVariant]. *)
Theorem run_frame (w : World) :
  environ (world (final w)) = environ w /\
  installed (world (final w)) = installed w /\
  sys_modules w ⊆ sys_modules (world (final w)) /\
  (forall obj attr,
     installed w !! "PyQt4.QtCore" <> Some obj \/
     (attr <> "Signal" /\ attr <> "Slot") ->
     attr_of (final w) obj attr = world_attr w obj attr) /\
  (forall api, api <> "QString" -> api <> "QVariant" ->
     sip_api (world (final w)) !! api = sip_api w !! api).
Proof. by destruct (run_audit w) as (_ & Hf & _). Qed.

(** X5.  A module is imported only for the binding that the resolved
    identity selects: apart from [os], every import in the trace is of
    sip or PyQt4 when the identity is ["pyqt"], and of PySide when it is
    ["pyside"]; no run imports from both bindings. *)
Theorem imports_follow_config (w : World) (n : string) :
  EvImport n ∈ trace (final w) -> n <> "os" ->
  (resolve w = QT_API_PYQT /\ n ∈ "sip" :: pyqt4_modules) \/
  (resolve w = QT_API_PYSIDE /\ n ∈ pyside_modules).
Proof.
  intros Hn Hos. destruct (trace_bounds w) as (_ & [k Hk]).
  assert (EvImport n ∈ script w) as Hs.
  { rewrite Hk. apply elem_of_app. by left. }
  clear Hk Hn. unfold script, script_for in Hs.
  destruct (String.eqb_spec (resolve w) QT_API_PYQT) as [Hv|_];
    [|destruct (String.eqb_spec (resolve w) QT_API_PYSIDE) as [Hv|_]].
  - left. split; [done|].
    unfold prologue_trace, pyqt_tail in Hs. simpl in Hs.
    repeat (apply elem_of_cons in Hs as [Hs|Hs];
            [first [discriminate | injection Hs as ->; first [done|in_list]]|]).
    by apply elem_of_nil in Hs.
  - right. split; [done|].
    unfold prologue_trace, pyside_tail in Hs. simpl in Hs.
    repeat (apply elem_of_cons in Hs as [Hs|Hs];
            [first [discriminate | injection Hs as ->; first [done|in_list]]|]).
    by apply elem_of_nil in Hs.
  - unfold prologue_trace in Hs. simpl in Hs.
    repeat (apply elem_of_cons in Hs as [Hs|Hs];
            [first [discriminate | injection Hs as ->; done]|]).
    by apply elem_of_nil in Hs.
Qed.

Lemma imports_follow_config_witness :
  EvImport "PyQt4.QtGui" ∈ trace (final Sample.unset) /\
  resolve Sample.unset = QT_API_PYQT.
Proof.
  assert (EvImport "PyQt4.QtGui" ∈ trace (final Sample.unset)) as Hn
    by (apply list_elem_of_In; vm_compute; tauto).
  split; [exact Hn|].
  destruct (imports_follow_config Sample.unset "PyQt4.QtGui" Hn)
    as [[Hv _]|[Hv _]]; [discriminate | exact Hv | discriminate Hv].
Defined.



(** ** Runs that fail part way, and the namespace *)

(** X7.  When sip is not installed, a run of the PyQt branch raises the
    [ImportError] of sip before anything else happens: the host is left
    exactly as it was, PyQt4 is not imported even if it is installed,
    and the trace is the prologue. *)
Theorem missing_sip_stops_first (w : World) :
  resolve w = QT_API_PYQT -> installed w !! "sip" = None ->
  outcome w = inl (ImportError "sip") /\
  world (final w) = w /\
  trace (final w) = prologue_trace.
Proof.
  intros Hv Hs. unfold resolve in Hv.
  destruct w as [env inst sysm hp sa]. simpl in *.
  qt_red. rewrite Hv. qt_str_cases. qt_red. by repeat qt_case.
Qed.

Lemma missing_sip_stops_first_witness :
  resolve (Sample.bare ∅) = QT_API_PYQT /\
  installed (Sample.bare ∅) !! "sip" = None /\
  outcome (Sample.bare ∅) = inl (ImportError "sip").
Proof.
  split; [reflexivity|]. split; [reflexivity|].
  exact (proj1 (missing_sip_stops_first (Sample.bare ∅) eq_refl eq_refl)).
Defined.

(** X8.  When sip is installed and accepts both APIs but the PyQt4
    package is not installed, the import fails with the [ImportError] of
    PyQt4 after both mode switches have taken effect: sip is loaded and
    bound in the namespace and holds both APIs at version 2. *)
Theorem missing_pyqt4_leaves_sip_configured (w : World) (sip : loc) :
  resolve w = QT_API_PYQT ->
  installed w !! "sip" = Some sip ->
  sip_accepts w "QString" 2 -> sip_accepts w "QVariant" 2 ->
  installed w !! "PyQt4" = None ->
  outcome w = inl (ImportError "PyQt4") /\
  sip_api (world (final w)) !! "QString" = Some 2 /\
  sip_api (world (final w)) !! "QVariant" = Some 2 /\
  "sip" ∈ sys_modules (world (final w)) /\
  globals (final w) !! "sip" = Some (VRef sip).
Proof.
  intros Hv Hs Ha Hb Hp. unfold resolve in Hv. unfold sip_accepts in Ha, Hb.
  destruct w as [env inst sysm hp sa]. simpl in *.
  qt_red. rewrite Hv. qt_str_cases. qt_red.
  destruct Ha as [Ha|Ha], Hb as [Hb|Hb].
  all: repeat qt_case; try done.
  all: repeat split; try by map_lookups.
  all: rewrite elem_of_union, elem_of_singleton; by left.
Qed.

Lemma missing_pyqt4_leaves_sip_configured_witness :
  installed Broken.sip_only !! "PyQt4" = None /\
  outcome Broken.sip_only = inl (ImportError "PyQt4") /\
  sip_api (world (final Broken.sip_only)) !! "QString" = Some 2.
Proof.
  split; [reflexivity|].
  destruct (missing_pyqt4_leaves_sip_configured Broken.sip_only 1)
    as (Ho & Hq & _);
    [reflexivity | reflexivity | by left | by left | reflexivity |].
  split; [exact Ho|exact Hq].
Defined.

(** X9.  When the PyQt4 core module has [pyqtSignal] but no [pyqtSlot],
    the import fails with the [AttributeError] of [pyqtSlot] after the
    first alias has been made: [Signal] on the core module is
    [pyqtSignal], while [Slot] is as it was; the three handles are
    bound. *)
Theorem missing_pyqtSlot_keeps_signal_alias
    (w : World) (sip qc qg qs sg : loc) :
  resolve w = QT_API_PYQT ->
  provides_pyqt4_modules w sip qc qg qs ->
  world_attr w qc "pyqtSignal" = Some sg ->
  world_attr w qc "pyqtSlot" = None ->
  outcome w = inl (AttributeError "pyqtSlot") /\
  attr_of (final w) qc "Signal" = Some sg /\
  attr_of (final w) qc "Slot" = world_attr w qc "Slot" /\
  globals (final w) !! "QtCore" = Some (VRef qc) /\
  globals (final w) !! "QtGui" = Some (VRef qg) /\
  globals (final w) !! "QtSvg" = Some (VRef qs).
Proof.
  intros Hv [Hsip Ha Hb [pkg Hpkg] Hc Hg Hsv] Hsg Hsl.
  unfold resolve in Hv. unfold sip_accepts in Ha, Hb.
  unfold world_attr in *.
  destruct w as [env inst sysm hp sa]. simpl in *.
  destruct (hp !! qc) as [d|] eqn:Hd; [|done]. simpl in Hsg, Hsl.
  qt_red. rewrite Hv. qt_str_cases. qt_red.
  destruct Ha as [Ha|Ha], Hb as [Hb|Hb].
  all: repeat qt_case; try done.
  all: repeat split; try by map_lookups.
  all: rewrite Hd; by map_lookups.
Qed.

Lemma missing_pyqtSlot_keeps_signal_alias_witness :
  world_attr Broken.no_slot 3 "pyqtSlot" = None /\
  outcome Broken.no_slot = inl (AttributeError "pyqtSlot") /\
  attr_of (final Broken.no_slot) 3 "Signal" = Some 20%positive /\
  attr_of (final Broken.no_slot) 3 "Slot" = Some 40%positive.
Proof.
  assert (provides_pyqt4_modules Broken.no_slot 1 3 4 5) as Hw.
  { split; try (vm_compute; reflexivity); try (left; vm_compute; reflexivity).
    eexists; vm_compute; reflexivity. }
  split; [vm_compute; reflexivity|].
  destruct (missing_pyqtSlot_keeps_signal_alias Broken.no_slot 1 3 4 5 20
              eq_refl Hw)
    as (Ho & Hs & Hl & _); [vm_compute; reflexivity..|].
  split; [exact Ho|]. split; [exact Hs|].
  rewrite Hl. vm_compute; reflexivity.
Defined.

Lemma pyqt_namespace (w : World) (qc qg qs sg sl : loc) :
  resolve w = QT_API_PYQT -> provides_pyqt w qc qg qs sg sl ->
  dom (globals (final w)) = common_names ∪ {["sip"]}.
Proof.
  intros Hv [[sip Hsip] Hs Hq [pkg Hpkg] Hc Hg Hsv Hsg Hsl].
  unfold world_attr in Hsg, Hsl. unfold resolve in Hv.
  unfold sip_accepts in Hs, Hq.
  destruct w as [env inst sysm hp sa]. simpl in *.
  destruct (hp !! qc) as [d|] eqn:Hd; [|done]. simpl in Hsg, Hsl.
  qt_red. rewrite Hv. qt_str_cases. qt_red.
  destruct Hs as [Hs|Hs], Hq as [Hq|Hq].
  all: repeat qt_case; try done.
  all: rewrite !dom_insert_L, dom_empty_L; unfold common_names.
  all: apply set_eq; intros x;
    rewrite ?elem_of_union, ?elem_of_singleton, ?elem_of_empty; tauto.
Qed.

Lemma pyside_namespace (w : World) (qc qg qs : loc) :
  environ w !! "QT_API" = Some QT_API_PYSIDE -> provides_pyside w qc qg qs ->
  dom (globals (final w)) = common_names.
Proof.
  intros Hv [[pkg Hpkg] Hc Hg Hsv].
  destruct w as [env inst sysm hp sa]. simpl in *.
  qt_red. rewrite Hv. qt_str_cases. qt_red.
  repeat qt_case.
  rewrite !dom_insert_L, dom_empty_L; unfold common_names.
  apply set_eq; intros x;
    rewrite ?elem_of_union, ?elem_of_singleton, ?elem_of_empty; tauto.
Qed.

(** X10.  After a successful import the namespace of the shim holds
    exactly [os], [QT_API_PYQT], [QT_API_PYSIDE], [QT_API], [QtCore],
    [QtGui] and [QtSvg], and in addition [sip] when the PyQt binding was
    selected: [os] and [sip] are exposed besides the three handles. *)
Theorem namespace_on_success (w : World) :
  outcome w = inr tt ->
  dom (globals (final w)) =
    if String.eqb (resolve w) QT_API_PYQT
    then common_names ∪ {["sip"]} else common_names.
Proof.
  intros [(Hv & qc & qg & qs & sg & sl & Hw)|(Hv & qc & qg & qs & Hw)]
    %success_iff_binding_provided.
  - rewrite Hv. simpl. by eapply pyqt_namespace.
  - rewrite Hv. simpl. eapply pyside_namespace; [by apply resolve_pyside|done].
Qed.

Lemma namespace_on_success_witness :
  outcome Sample.unset = inr tt /\
  "sip" ∈ dom (globals (final Sample.unset)) /\
  outcome (Sample.with_api "pyside") = inr tt /\
  "sip" ∉ dom (globals (final (Sample.with_api "pyside"))).
Proof.
  assert (outcome Sample.unset = inr tt) as H1 by (vm_compute; reflexivity).
  assert (outcome (Sample.with_api "pyside") = inr tt) as H2
    by (vm_compute; reflexivity).
  split; [exact H1|]. split.
  - rewrite (namespace_on_success Sample.unset H1).
    change (String.eqb (resolve Sample.unset) QT_API_PYQT) with true.
    cbv iota. apply elem_of_union. right. by apply elem_of_singleton.
  - split; [exact H2|].
    rewrite (namespace_on_success (Sample.with_api "pyside") H2).
    change (String.eqb (resolve (Sample.with_api "pyside")) QT_API_PYQT) with false.
    cbv iota. unfold common_names.
    rewrite !not_elem_of_union, !not_elem_of_singleton. by repeat split.
Defined.

(** ** The message read back *)

Section PyLiteralFacts.
Import PyStr PyLiteral.

Lemma all_printable_app (a b : string) :
  all_printable (a +:+ b) = all_printable a && all_printable b.
Proof.
  induction a as [|c a IH]; [done|].
  rewrite append_cons. simpl. by rewrite IH, andb_assoc.
Qed.

Lemma repr_char_printable (q c : ascii) :
  q = squote \/ q = dquote -> all_printable (repr_char q c) = true.
Proof.
  intros [-> | ->]; by destruct c as [[] [] [] [] [] [] [] []].
Qed.

Lemma repr_body_printable (q : ascii) (s : string) :
  q = squote \/ q = dquote -> all_printable (repr_body q s) = true.
Proof.
  intros Hq. induction s as [|c s IH]; [done|]. simpl.
  by rewrite all_printable_app, repr_char_printable, IH.
Qed.

Lemma repr_quote_cases (s : string) :
  repr_quote s = squote \/ repr_quote s = dquote.
Proof. unfold repr_quote. destruct (_ && _); auto. Qed.

Lemma repr_printable (s : string) : all_printable (repr s) = true.
Proof.
  unfold repr. destruct (repr_quote_cases s) as [Hq|Hq].
  all: cbn [all_printable]; rewrite all_printable_app.
  all: rewrite repr_body_printable by (rewrite Hq; auto).
  all: by rewrite Hq.
Qed.

Lemma unescape_repr_char (q c : ascii) (rest : string) :
  q = squote \/ q = dquote ->
  unescape q (repr_char q c +:+ rest) = push c <$> unescape q rest.
Proof.
  intros [-> | ->]; by destruct c as [[] [] [] [] [] [] [] []].
Qed.

Lemma unescape_repr_body (q : ascii) (s rest : string) :
  q = squote \/ q = dquote ->
  unescape q (repr_body q s +:+ String q rest) = Some (s, rest).
Proof.
  intros Hq. induction s as [|c s IH].
  - destruct Hq as [-> | ->]; reflexivity.
  - cbn [repr_body]. rewrite app_assoc_s, unescape_repr_char, IH by done.
    reflexivity.
Qed.

End PyLiteralFacts.

(** Reading back what [repr] wrote gives the string it was
    written from, whatever text follows the closing quote: [repr] loses
    nothing of its argument. *)
Theorem parse_repr (s rest : string) :
  PyLiteral.parse (PyStr.repr s +:+ rest) = Some (s, rest).
Proof.
  unfold PyStr.repr. rewrite append_cons, app_assoc_s, append_cons, append_nil.
  cbn [PyLiteral.parse].
  destruct (repr_quote_cases s) as [Hq|Hq]; rewrite Hq.
  all: apply unescape_repr_body; auto.
Qed.

Lemma repr_inj (s1 s2 t1 t2 : string) :
  PyStr.repr s1 +:+ t1 = PyStr.repr s2 +:+ t2 -> s1 = s2 /\ t1 = t2.
Proof.
  intros H. pose proof (parse_repr s1 t1) as H1.
  rewrite H, parse_repr in H1. by injection H1 as -> ->.
Qed.

Lemma invalid_message_inj (v1 v2 : string) :
  invalid_message v1 = invalid_message v2 -> v1 = v2.
Proof.
  unfold invalid_message. intros H%(inj (String.app _)).
  by apply repr_inj in H as [-> _].
Qed.

Lemma mem_not_printable (c : ascii) (s : string) :
  PyLiteral.printable c = false -> PyLiteral.all_printable s = true ->
  PyStr.mem c s = false.
Proof.
  intros Hc. induction s as [|d s IH]; [done|]. simpl.
  intros [Hd Hs]%andb_true_iff. rewrite (IH Hs), orb_false_r.
  destruct (Ascii.eqb_spec c d) as [->|]; [congruence|done].
Qed.

Lemma invalid_message_printable (v : string) :
  PyLiteral.all_printable (invalid_message v) = true.
Proof.
  unfold invalid_message. rewrite !all_printable_app, repr_printable. reflexivity.
Qed.

(** X11.  Whatever bytes the offending value holds, the message of the
    [RuntimeError] is made of printable ASCII characters only; in
    particular it is a single line. *)
Theorem message_is_printable (w : World) (msg : string) :
  outcome w = inl (RuntimeError msg) ->
  PyLiteral.all_printable msg = true /\
  PyStr.mem PyStr.newline msg = false /\
  PyStr.mem PyStr.creturn msg = false.
Proof.
  intros (_ & _ & ->)%runtime_error_iff_unrecognised.
  pose proof (invalid_message_printable (resolve w)) as Hp.
  split; [exact Hp|]. split; by apply mem_not_printable.
Qed.

Lemma message_is_printable_witness :
  let v := String PyStr.newline (String "001" "gtk") in
  exists msg,
    outcome (Sample.with_api v) = inl (RuntimeError msg) /\
    msg = "Invalid Qt API '\n\x01gtk', valid values are: 'pyqt' or 'pyside'" /\
    PyLiteral.all_printable msg = true.
Proof.
  intros v.
  assert (outcome (Sample.with_api v) =
          inl (RuntimeError
                 "Invalid Qt API '\n\x01gtk', valid values are: 'pyqt' or 'pyside'"))
    as Ho by (vm_compute; reflexivity).
  eexists. split; [exact Ho|]. split; [reflexivity|].
  exact (proj1 (message_is_printable _ _ Ho)).
Defined.

(** X12.  The message of the [RuntimeError] determines the offending
    value: two runs that raise the same message read the same value of
    [QT_API]. *)
Theorem message_determines_value (w1 w2 : World) (msg : string) :
  outcome w1 = inl (RuntimeError msg) ->
  outcome w2 = inl (RuntimeError msg) ->
  environ w1 !! "QT_API" = environ w2 !! "QT_API" /\
  environ w1 !! "QT_API" = Some (resolve w1).
Proof.
  intros (H1 & _ & ->)%runtime_error_iff_unrecognised
         (H2 & _ & Hm%invalid_message_inj)%runtime_error_iff_unrecognised.
  rewrite (resolve_not_pyqt w1 H1), (resolve_not_pyqt w2 H2).
  by rewrite Hm.
Qed.

Lemma message_determines_value_witness :
  exists msg,
    outcome (Sample.with_api "gtk") = inl (RuntimeError msg) /\
    outcome (Sample.bare {["QT_API" := "gtk"]}) = inl (RuntimeError msg) /\
    environ (Sample.with_api "gtk") !! "QT_API" = Some "gtk".
Proof.
  assert (outcome (Sample.with_api "gtk") =
          inl (RuntimeError (invalid_message "gtk"))) as H1
    by (vm_compute; reflexivity).
  assert (outcome (Sample.bare {["QT_API" := "gtk"]}) =
          inl (RuntimeError (invalid_message "gtk"))) as H2
    by (vm_compute; reflexivity).
  exists (invalid_message "gtk"). split; [exact H1|]. split; [exact H2|].
  destruct (message_determines_value _ _ _ H1 H2) as (_ & He).
  exact He.
Defined.

(** ** Running the body again *)

Lemma import_qt_pyqt_world (w : World) (qc qg qs sg sl : loc) :
  resolve w = QT_API_PYQT ->
  provides_pyqt w qc qg qs sg sl ->
  exists d, heap w !! qc = Some d /\ d !! "pyqtSignal" = Some sg /\
            d !! "pyqtSlot" = Some sl /\
            world (final w) = pyqt_world w qc sg sl d.
Proof.
  intros Hv [[sip Hsip] Hs Hq [pkg Hpkg] Hc Hg Hsv Hsg Hsl].
  unfold world_attr in Hsg, Hsl. unfold resolve in Hv.
  unfold sip_accepts in Hs, Hq.
  destruct w as [env inst sysm hp sa]. simpl in *.
  destruct (hp !! qc) as [d|] eqn:Hd; [|done]. simpl in Hsg, Hsl.
  exists d. do 3 (split; [done|]). unfold pyqt_world.
  qt_red. rewrite Hv. qt_str_cases. qt_red.
  destruct Hs as [Hs|Hs], Hq as [Hq|Hq].
  all: repeat qt_case; try done.
  all: rewrite insert_insert_eq; try reflexivity; f_equal.
  - by rewrite (insert_id (<["QString":=2]> sa) "QVariant" 2)
      by (by rewrite lookup_insert_ne).
  - by rewrite (insert_id sa "QString" 2).
  - by rewrite (insert_id sa "QString" 2), (insert_id sa "QVariant" 2).
Qed.

Lemma import_qt_pyside_world (w : World) (qc qg qs : loc) :
  environ w !! "QT_API" = Some QT_API_PYSIDE ->
  provides_pyside w qc qg qs ->
  world (final w) = pyside_world w.
Proof.
  intros Hv [[pkg Hpkg] Hc Hg Hsv].
  destruct w as [env inst sysm hp sa]. simpl in *.
  unfold pyside_world.
  qt_red. rewrite Hv. qt_str_cases. qt_red.
  by repeat qt_case.
Qed.

(** X13.  Running the body again in the host a successful import left
    succeeds and changes nothing in the host: the mode switches are
    accepted again, the modules are already loaded, and the aliases are
    assigned the objects they already are. *)
Theorem rerun_changes_nothing (w : World) :
  outcome w = inr tt ->
  outcome (world (final w)) = inr tt /\
  world (final (world (final w))) = world (final w).
Proof.
  intros [(Hv & qc & qg & qs & sg & sl & Hw)|(Hv & qc & qg & qs & Hw)]
    %success_iff_binding_provided.
  - destruct (import_qt_pyqt_world w qc qg qs sg sl Hv Hw)
      as (d & Hd & Hsg & Hsl & Hw1).
    set (d1 := <["Slot" := sl]> (<["Signal" := sg]> d)).
    assert (resolve (world (final w)) = QT_API_PYQT) as Hv1
      by (by rewrite Hw1).
    assert (provides_pyqt (world (final w)) qc qg qs sg sl) as Hp1.
    { destruct Hw as [? ? ? ? ? ? ? ? ?]. rewrite Hw1.
      split; try done.
      - right. simpl. by rewrite lookup_insert_ne, lookup_insert_eq.
      - right. simpl. by rewrite lookup_insert_eq.
      - unfold world_attr. simpl. rewrite lookup_insert_eq. simpl.
        by rewrite !lookup_insert_ne.
      - unfold world_attr. simpl. rewrite lookup_insert_eq. simpl.
        by rewrite !lookup_insert_ne. }
    split.
    { apply success_iff_binding_provided. left. split; [done|].
      by exists qc, qg, qs, sg, sl. }
    destruct (import_qt_pyqt_world _ qc qg qs sg sl Hv1 Hp1)
      as (d' & Hd' & _ & _ & Hw2).
    rewrite Hw2. rewrite Hw1 in Hd' |- *. simpl in Hd'.
    rewrite lookup_insert_eq in Hd'. injection Hd' as <-.
    unfold pyqt_world at 1. simpl. unfold pyqt_world. f_equal.
    + apply set_eq; intros x; rewrite !elem_of_union; tauto.
    + rewrite insert_insert_eq. f_equal.
      rewrite (insert_id _ "Signal" sg) by (by rewrite lookup_insert_ne, lookup_insert_eq).
      by rewrite insert_insert_eq.
    + rewrite (insert_id _ "QString" 2) by (by rewrite lookup_insert_ne, lookup_insert_eq).
      by rewrite insert_insert_eq.
  - pose proof (resolve_pyside w Hv) as He.
    pose proof (import_qt_pyside_world w qc qg qs He Hw) as Hw1.
    assert (environ (world (final w)) !! "QT_API" = Some QT_API_PYSIDE) as He1
      by (by rewrite Hw1).
    assert (provides_pyside (world (final w)) qc qg qs) as Hp1.
    { destruct Hw as [? ? ? ?]. rewrite Hw1. by split. }
    split.
    { apply success_iff_binding_provided. right. split.
      - unfold resolve. by rewrite He1.
      - by exists qc, qg, qs. }
    rewrite (import_qt_pyside_world _ qc qg qs He1 Hp1), Hw1.
    unfold pyside_world. simpl. f_equal.
    apply set_eq; intros x; rewrite !elem_of_union; tauto.
Qed.

Lemma rerun_changes_nothing_witness :
  outcome Sample.unset = inr tt /\
  outcome (world (final Sample.unset)) = inr tt.
Proof.
  assert (outcome Sample.unset = inr tt) as Ho by (vm_compute; reflexivity).
  split; [exact Ho|].
  exact (proj1 (rerun_changes_nothing Sample.unset Ho)).
Defined.

(** ** The environment beyond [QT_API] *)

Section EnvBlind.

Lemma blind_bind {A B} (m : M A) (k : A -> M B) :
  env_blind m -> (forall a, env_blind (k a)) -> env_blind (bind m k).
Proof.
  intros Hm Hk st1 st2 Hs. unfold bind.
  destruct (Hm st1 st2 Hs) as [Hs' Hr].
  destruct (m st1) as [st1' [e1|a1]], (m st2) as [st2' [e2|a2]];
    simpl in *; try discriminate.
  - by injection Hr as ->.
  - injection Hr as ->. by apply Hk.
Qed.

Lemma blind_if {A} (b : bool) (m1 m2 : M A) :
  env_blind m1 -> env_blind m2 -> env_blind (if b then m1 else m2).
Proof. by destruct b. Qed.

Lemma blind_ret {A} (a : A) : env_blind (ret a).
Proof. by intros st1 st2 Hs. Qed.

Lemma blind_raise {A} (e : exn) : env_blind (@raise A e).
Proof. by intros st1 st2 Hs. Qed.

Ltac blind_prim :=
  intros [[e1 i1 m1 h1 a1] g1 t1] [[e2 i2 m2 h2 a2] g2 t2]
         (Hg & Ht & Hi & Hm & Hh & Ha & He);
  simpl in *; subst.

Lemma blind_emit (e : event) : env_blind (emit e).
Proof. blind_prim. by repeat split. Qed.

Lemma blind_store (name : string) (v : value) : env_blind (store name v).
Proof. blind_prim. by repeat split. Qed.

Lemma blind_environ_get (d : string) : env_blind (environ_get "QT_API" d).
Proof. blind_prim. unfold environ_get; simpl. rewrite He. by repeat split. Qed.

Lemma blind_import_name (name : string) : env_blind (import_name name).
Proof.
  blind_prim. unfold import_name; simpl.
  destruct (i2 !! name); by repeat split.
Qed.

Lemma blind_setapi (sip : loc) (api : string) (v : Z) : env_blind (setapi sip api v).
Proof.
  blind_prim. unfold setapi; simpl.
  destruct (a2 !! api) as [v'|]; [destruct (Z.eqb v' v)|]; by repeat split.
Qed.

Lemma blind_getattr (obj : loc) (attr : string) : env_blind (getattr obj attr).
Proof.
  blind_prim. unfold getattr; simpl.
  destruct (h2 !! obj) as [d|]; [destruct (d !! attr)|]; by repeat split.
Qed.

Lemma blind_setattr (obj : loc) (attr : string) (v : loc) :
  env_blind (setattr obj attr v).
Proof. blind_prim. by repeat split. Qed.

Lemma blind_format (fmt : string) (args : list string) :
  env_blind (format fmt args).
Proof. unfold format. destruct (PyStr.format fmt args); by intros st1 st2 Hs. Qed.

Lemma blind_import_from (pkg name : string) : env_blind (import_from pkg name).
Proof.
  unfold import_from.
  repeat (apply blind_bind; [|intros ?]);
    auto using blind_import_name, blind_store, blind_ret.
Qed.

Lemma blind_qt : env_blind qt.
Proof.
  unfold qt, import_os.
  repeat first
    [ apply blind_bind; [|intros ?]
    | apply blind_if
    | apply blind_emit | apply blind_store | apply blind_environ_get
    | apply blind_import_name | apply blind_import_from | apply blind_setapi
    | apply blind_getattr | apply blind_setattr | apply blind_format
    | apply blind_ret | apply blind_raise ].
Qed.

End EnvBlind.

(** X14.  The shim consults nothing of the process environment but
    [QT_API]: replacing the environment by one with the same [QT_API]
    entry gives the same outcome, the same namespace, the same trace and
    the same effects on the host. *)
Theorem only_QT_API_is_consulted (w : World) (env' : gmap string string) :
  env' !! "QT_API" = environ w !! "QT_API" ->
  outcome (with_environ env' w) = outcome w /\
  globals (final (with_environ env' w)) = globals (final w) /\
  trace (final (with_environ env' w)) = trace (final w) /\
  world (final (with_environ env' w)) = with_environ env' (world (final w)).
Proof.
  intros He.
  assert (same_but_environ (mkState (with_environ env' w) ∅ []) (mkState w ∅ []))
    as Hs by (by repeat split).
  destruct (blind_qt _ _ Hs) as [(Hg & Ht & Hi & Hm & Hh & Ha & _) Ho].
  fold (import_qt (with_environ env' w)) in *. fold (import_qt w) in *.
  fold (final (with_environ env' w)) in *. fold (final w) in *.
  fold (outcome (with_environ env' w)) in *. fold (outcome w) in *.
  repeat split; try done.
  destruct (run_frame (with_environ env' w)) as (Hen & _).
  destruct (world (final (with_environ env' w))); simpl in *.
  unfold with_environ. by subst.
Qed.

Lemma only_QT_API_is_consulted_witness :
  ({["HOME" := "/root"; "QT_API" := "pyside"]} : gmap string string) !! "QT_API"
    = environ (Sample.with_api "pyside") !! "QT_API" /\
  outcome (Sample.host {["HOME" := "/root"; "QT_API" := "pyside"]}) =
    outcome (Sample.with_api "pyside").
Proof.
  assert (({["HOME" := "/root"; "QT_API" := "pyside"]} : gmap string string)
            !! "QT_API" = environ (Sample.with_api "pyside") !! "QT_API") as He
    by (vm_compute; reflexivity).
  split; [exact He|].
  exact (proj1 (only_QT_API_is_consulted (Sample.with_api "pyside") _ He)).
Defined.
